(** * pymrt.visualizer.plot3d: the frame controller of [animate_sensor_with_gm]

    A shallow embedding of the non-rendering logic of
    [src/pymrt/visualizer/plot3d.py]: the closure [Controller] with its two
    button handlers and [update_frame], the first frame built by [main_view],
    and the argument check of [animate_sensor_with_gm].

    - numpy's float64 is Rocq's primitive binary64 ([PrimFloat.float]); [==]
      is IEEE equality ([PrimFloat.eqb]), [+] is [PrimFloat.add].
    - [np.log] is an external routine: the development is parametric in it
      ([np_log]); closed examples instantiate it with [log_binary64].
    - a Python exception is a value of [exn]; a method that mutates [self]
      and may raise is a function [Controller -> result unit * Controller]:
      the object keeps whatever was written before the exception.
    - a handler is the method call itself: the [mayavi2.standalone]
      decorator and the dispatch of button events by traits are outside.
    - calls into mayavi (figures, contours, text, axes) are not modelled,
      except for what the handlers write into the scene: the scalars of the
      contour, the colour vector of the sensor points, and the number of
      [mlab.draw()] calls. *)

From Stdlib Require Import ZArith Floats Lia.
From stdpp Require Import base list strings.

Local Open Scope Z_scope.

(** ** Exceptions and results *)

Inductive exn : Set := ValueError | IndexError.

Inductive result (A : Type) : Type :=
| Ok (a : A)
| Raise (e : exn).
Arguments Ok {A} a.
Arguments Raise {A} e.

Definition bindR {A B} (r : result A) (k : A -> result B) : result B :=
  match r with
  | Ok a => k a
  | Raise e => Raise e
  end.

Declare Scope result_scope.
Delimit Scope result_scope with res.
Notation "'let*' x := r 'in' k" := (bindR r (fun x => k))
  (at level 10, x name, r at level 100, k at level 200) : result_scope.

(** ** Python and numpy primitives *)

(** [l[i]] on a Python list: a negative index counts from the end, an index
    out of range raises IndexError. *)
Definition py_getitem {A} (l : list A) (i : Z) : result A :=
  let n := Z.of_nat (length l) in
  let j := if i <? 0 then i + n else i in
  if (0 <=? j) && (j <? n) then
    match l !! Z.to_nat j with
    | Some x => Ok x
    | None => Raise IndexError
    end
  else Raise IndexError.

(** A row of [embeddings] and a flattened observation: three float64. *)
Definition vec3 : Type := float * float * float.

(** [embeddings == sensor_vec.flatten()]: broadcast, element-wise IEEE [==]. *)
Definition np_equal (embeddings : list vec3) (v : vec3)
  : list (bool * bool * bool) :=
  map (fun row : vec3 =>
         let '(x, y, z) := row in
         let '(a, b, c) := v in
         ((x =? a)%float, (y =? b)%float, (z =? c)%float))
      embeddings.

(** [np.all(m, axis=1)] *)
Definition np_all_axis1 (m : list (bool * bool * bool)) : list bool :=
  map (fun r : bool * bool * bool => let '(p, q, r) := r in p && q && r) m.

(** [np.where(mask)[0]]: the indices of the true entries, ascending. *)
Fixpoint np_where_from (i : nat) (mask : list bool) : list nat :=
  match mask with
  | [] => []
  | b :: mask' =>
      if b then i :: np_where_from (S i) mask' else np_where_from (S i) mask'
  end.

Definition np_where (mask : list bool) : list nat := np_where_from 0 mask.

(** [a[0]] on a one-dimensional array: IndexError when it is empty. *)
Definition np_first {A} (a : list A) : result A :=
  match a with
  | [] => Raise IndexError
  | x :: _ => Ok x
  end.

(** [np.where(np.all(embeddings == sensor_vec.flatten(), axis=1))[0][0]]
    (lines 204-206 and 252-254); the spec calls it [lookup_exact]. *)
Definition lookup_exact (embeddings : list vec3) (v : vec3) : result nat :=
  np_first (np_where (np_all_axis1 (np_equal embeddings v))).

(** [np.zeros(n)] *)
Definition np_zeros (n : nat) : list float := replicate n 0%float.

(** [a[idx] = x] with a list of indices: numpy checks every index first
    (IndexError when one is out of bounds), then stores [x] at each. *)
Definition np_setitems (a : list float) (idx : list nat) (x : float)
  : result (list float) :=
  if forallb (fun i => Nat.ltb i (length a)) idx
  then Ok (foldl (fun acc i => <[i := x]> acc) a idx)
  else Raise IndexError.

(** [np.finfo(np.float).tiny]: 2^-1022. *)
Definition tiny : float := 0x1p-1022%float.

(** ** A binary64 logarithm for the closed examples

    [np.log] on float64 follows C's [log]: NaN for a NaN or negative
    argument, -inf at zero, +inf at +inf, and a finite value elsewhere; with
    numpy's default error state the first two only warn.  [log_binary64]
    has these special values and evaluates [e * ln 2 + 2 * atanh ((m-1)/(m+1))]
    in binary64 for [x = m * 2^e].  The theorems below hold for every
    [np_log]; this one only instantiates it in examples. *)

Fixpoint atanh_series (n : nat) (c w : float) : float :=
  match n with
  | O => (1 / c)%float
  | S n' => (1 / c + w * atanh_series n' (c + 2) w)%float
  end.

Definition ln2 : float := 0x1.62e42fefa39efp-1%float.

Definition log_binary64 (x : float) : float :=
  if is_nan x || (x <? 0)%float then nan
  else if (x =? 0)%float then neg_infinity
  else if (x =? infinity)%float then infinity
  else
    let '(m, se) := frshiftexp x in
    let e := (of_uint63 se - 2101)%float in
    let '(m, e) :=
      if (m <? 0x1.6a09e667f3bcdp-1)%float then ((m * 2)%float, (e - 1)%float)
      else (m, e) in
    let z := ((m - 1) / (m + 1))%float in
    (e * ln2 + 2 * z * atanh_series 12 1 (z * z))%float.

(** ** The controller

    [Controller] as [main_view] builds it.  [phd_scalars] is what
    [self.phd_contour.mlab_source] displays.  [color_vector] is
    [self.color_vector]; the point scalars of [self.sensor_points] are set
    to this very array (lines 247 and 210), so one buffer stands for both.
    [draws] counts the calls of [mlab.draw()]. *)

Record Controller : Type := mkController {
  current_frame : Z;
  phd_scalars : list float;
  color_vector : list float;
  draws : nat
}.

(** A method of [Controller]: it may mutate [self] and may raise. *)
Definition M (A : Type) : Type := Controller -> result A * Controller.

Definition ret {A} (a : A) : M A := fun self => (Ok a, self).

Definition bindM {A B} (m : M A) (k : A -> M B) : M B :=
  fun self =>
    match m self with
    | (Ok a, self') => k a self'
    | (Raise e, self') => (Raise e, self')
    end.

Definition liftR {A} (r : result A) : M A := fun self => (r, self).

Definition gets {A} (f : Controller -> A) : M A := fun self => (Ok (f self), self).

Definition modify (f : Controller -> Controller) : M unit :=
  fun self => (Ok tt, f self).

Declare Scope method_scope.
Delimit Scope method_scope with M.
Notation "x <- m ;; k" := (bindM m (fun x => k))
  (at level 100, m at next level, right associativity) : method_scope.
Notation "m ;; k" := (bindM m (fun _ => k))
  (at level 100, right associativity) : method_scope.

Definition set_current_frame (i : Z) (self : Controller) : Controller :=
  mkController i (phd_scalars self) (color_vector self) (draws self).

Definition set_phd_scalars (f : list float) (self : Controller) : Controller :=
  mkController (current_frame self) f (color_vector self) (draws self).

Definition set_color_vector (c : list float) (self : Controller) : Controller :=
  mkController (current_frame self) (phd_scalars self) c (draws self).

(** [mlab.draw()] *)
Definition mlab_draw (self : Controller) : Controller :=
  mkController (current_frame self) (phd_scalars self) (color_vector self)
               (S (draws self)).

(** [len(l)] *)
Definition len {A} (l : list A) : Z := Z.of_nat (length l).

(** The two buttons of the view (lines 167-168). *)
Inductive button : Set := next_frame | previous_frame.

Section Closure.

(** The variables the nested class and [main_view] close over. *)
Variable np_log : float -> float.
Variable embeddings : list vec3.
Variable gm_s_list : list (list float).
Variable observation_list : option (list (list vec3)).
Variable log_plot : bool.

(** Lines 191-196, 220-223 and 80-83:
    [np.log(gm_s + np.finfo(np.float).tiny)] when [log_plot], else [gm_s]. *)
Definition contour_s_of (gm_s : list float) : list float :=
  if log_plot then map (fun x => np_log (x + tiny)%float) gm_s else gm_s.

(** Lines 203-208 and 251-256: the list comprehension over [obs_array];
    the first observation without a matching row raises. *)
Fixpoint obs_index_of (obs_array : list vec3) : result (list nat) :=
  match obs_array with
  | [] => Ok []
  | sensor_vec :: rest =>
      (let* i := lookup_exact embeddings sensor_vec in
       let* js := obs_index_of rest in
       Ok (i :: js))%res
  end.

(** Lines 189-212. *)
Definition update_frame : M unit :=
  (i <- gets current_frame ;;
   gm_s <- liftR (py_getitem gm_s_list i) ;;
   modify (set_phd_scalars (contour_s_of gm_s)) ;;
   c <- gets color_vector ;;
   modify (set_color_vector (np_zeros (length c))) ;;
   match observation_list with
   | None => ret tt
   | Some ol =>
       i <- gets current_frame ;;
       obs_array <- liftR (py_getitem ol i) ;;
       obs_index <- liftR (obs_index_of obs_array) ;;
       c <- gets color_vector ;;
       c' <- liftR (np_setitems c obs_index 1%float) ;;
       modify (set_color_vector c')
   end ;;
   modify mlab_draw)%M.

(** Lines 177-181. *)
Definition _next_frame_changed : M unit :=
  (i <- gets current_frame ;;
   if i + 1 <? len gm_s_list then
     modify (set_current_frame (i + 1)) ;;
     update_frame
   else ret tt)%M.

(** Lines 183-187. *)
Definition _previous_frame_changed : M unit :=
  (i <- gets current_frame ;;
   if i - 1 >=? 0 then
     modify (set_current_frame (i - 1)) ;;
     update_frame
   else ret tt)%M.

(** Lines 215-273: the first frame and the controller, [current_frame = 0]
    being the class attribute of line 173. *)
Definition main_view : result Controller :=
  (let* gm_s := py_getitem gm_s_list 0 in
   let contour_s := contour_s_of gm_s in
   let color_vector := np_zeros (length embeddings) in
   let* color_vector :=
     match observation_list with
     | None => Ok color_vector
     | Some ol =>
         let* obs_array := py_getitem ol 0 in
         let* obs_index := obs_index_of obs_array in
         np_setitems color_vector obs_index 1%float
     end in
   Ok (mkController 0 contour_s color_vector 0))%res.

Definition handler (b : button) : M unit :=
  match b with
  | next_frame => _next_frame_changed
  | previous_frame => _previous_frame_changed
  end.

(** Pressing buttons one after the other.  An exception raised by a
    handler leaves the object as the handler left it, and the next press
    starts from there. *)
Definition press (self : Controller) (b : button) : Controller :=
  snd (handler b self).

Definition run (bs : list button) (self : Controller) : Controller :=
  foldl press self bs.

End Closure.

(** ** The entry points *)

Section Entry.

Variable np_log : float -> float.

(** A Gaussian mixture (a list of [GaussianComponent]) and
    [gm_calculate(gm_list=., grid=grid)] of [pymrt.tracking.utils], the
    sampler of a mixture on the grid: both external to this file. *)
Variable GM : Type.
Variable gm_calculate : GM -> list float.

(** Lines 146-160 and 275: the argument check, the sampling loop, and
    [main_view()]. *)
Definition animate_sensor_with_gm
    (embeddings : list vec3)
    (gm_s_list : option (list (list float)))
    (gm_list_list : option (list GM))
    (observation_list : option (list (list vec3)))
    (log_plot : bool) : result Controller :=
  (let* gm_s_list :=
     match gm_s_list with
     | Some l => Ok l
     | None =>
         match gm_list_list with
         | None => Raise ValueError
         | Some gll => Ok (map gm_calculate gll)
         end
     end in
   main_view np_log embeddings gm_s_list observation_list log_plot)%res.

(** Lines 66-83 of [plot3d_sensor_with_gm]: the argument check and the
    scalar handed to [mlab.contour3d]. *)
Definition plot3d_sensor_with_gm
    (gm_s : option (list float)) (gm_list : option GM) (log_plot : bool)
  : result (list float) :=
  (let* gm_s :=
     match gm_s with
     | Some g => Ok g
     | None =>
         match gm_list with
         | None => Raise ValueError
         | Some gl => Ok (gm_calculate gl)
         end
     end in
   Ok (contour_s_of np_log log_plot gm_s))%res.

End Entry.

(** ** Vocabulary of the statements *)

(** Exact floating-point equality of a registered position and a query. *)
Definition vec_eqb (p v : vec3) : bool :=
  let '(x, y, z) := p in
  let '(a, b, c) := v in
  (x =? a)%float && (y =? b)%float && (z =? c)%float.

(** [i] is the lowest index whose position equals [v]. *)
Definition first_match (embeddings : list vec3) (v : vec3) (i : nat) : Prop :=
  (exists p, embeddings !! i = Some p /\ vec_eqb p v = true) /\
  (forall j q, (j < i)%nat -> embeddings !! j = Some q -> vec_eqb q v = false).

(** No registered position equals [v]. *)
Definition no_match (embeddings : list vec3) (v : vec3) : Prop :=
  forall p, p ∈ embeddings -> vec_eqb p v = false.

Section Shown.

Variable np_log : float -> float.
Variable embeddings : list vec3.
Variable gm_s_list : list (list float).
Variable observation_list : option (list (list vec3)).
Variable log_plot : bool.

(** The display field of frame [i]. *)
Definition frame_scalars (i : Z) : result (list float) :=
  (let* gm_s := py_getitem gm_s_list i in
   Ok (contour_s_of np_log log_plot gm_s))%res.

(** The active observations of frame [i]: none when no observation list
    was given. *)
Definition frame_observations (i : Z) : result (list vec3) :=
  match observation_list with
  | None => Ok []
  | Some ol => py_getitem ol i
  end.

(** The highlight vector of frame [i] over [n] sensors. *)
Definition frame_colors (n : nat) (i : Z) : result (list float) :=
  match observation_list with
  | None => Ok (np_zeros n)
  | Some ol =>
      (let* obs_array := py_getitem ol i in
       let* obs_index := obs_index_of embeddings obs_array in
       np_setitems (np_zeros n) obs_index 1%float)%res
  end.

(** The controller displays its current frame. *)
Definition shown (self : Controller) : Prop :=
  frame_scalars (current_frame self) = Ok (phd_scalars self) /\
  frame_colors (length embeddings) (current_frame self)
    = Ok (color_vector self).

(** What every reachable controller satisfies, exceptions included. *)
Definition in_range (self : Controller) : Prop :=
  0 <= current_frame self < len gm_s_list /\
  length (color_vector self) = length embeddings.

(** Every observation of frame [i] equals some registered position. *)
Definition resolvable (i : Z) : bool :=
  match frame_observations i with
  | Ok obs =>
      forallb (fun v => existsb (fun p => vec_eqb p v) embeddings) obs
  | Raise _ => false
  end.

Definition all_resolvable : bool :=
  forallb resolvable (seqZ 0 (len gm_s_list)).

(** Sensor [k] is resolved from one of the observations [obs]. *)
Definition highlighted (obs : list vec3) (k : nat) : Prop :=
  exists v, v ∈ obs /\ lookup_exact embeddings v = Ok k.

(** [c] is the highlight mask of [obs]: one entry per registered sensor,
    1.0 at the resolved indices and 0.0 elsewhere. *)
Definition mask_of (obs : list vec3) (c : list float) : Prop :=
  length c = length embeddings /\
  forall k, (k < length embeddings)%nat ->
    (highlighted obs k -> c !! k = Some 1%float) /\
    (~ highlighted obs k -> c !! k = Some 0%float).

End Shown.

(** The frames [animate_sensor_with_gm] plays: the scalars given, else the
    mixtures sampled in order. *)
Definition frames_of {GM : Type} (gm_calculate : GM -> list float)
    (gm_s_list : option (list (list float)))
    (gm_list_list : option (list GM)) : list (list float) :=
  match gm_s_list, gm_list_list with
  | Some l, _ => l
  | None, Some gll => map gm_calculate gll
  | None, None => []
  end.

(** The frame a button asks for. *)
Definition target (b : button) (i : Z) : Z :=
  match b with
  | next_frame => i + 1
  | previous_frame => i - 1
  end.

(** An element of [field + tiny] is not positive (NaN counts). *)
Definition nonpositive (x : float) : bool := negb (0 <? x + tiny)%float.

(** ** A small session for the closed examples

    Two sensors, three frames of two samples each; frame 1 has one
    observation, at the first sensor.  [stray_observations] has instead, in
    frame 1, an observation that is no sensor's position.  [np.log] is
    [log_binary64]; mixtures are given by their samples. *)

Definition demo_embeddings : list vec3 := [(0, 0, 0); (1, 1, 1)]%float.

Definition demo_fields : list (list float) :=
  [[1; 2]; [0; 3]; [-1; 4]]%float.

Definition demo_observations : option (list (list vec3)) :=
  Some [[]; [(0, 0, 0)%float]; []].

Definition stray_observations : option (list (list vec3)) :=
  Some [[(1, 1, 1)%float]; [(5, 5, 5)%float]; []].

Definition demo_animate (gm_s_list : option (list (list float)))
    (gm_list_list : option (list (list float)))
    (observation_list : option (list (list vec3)))
    (log_plot : bool) : result Controller :=
  animate_sensor_with_gm log_binary64 (list float) id demo_embeddings
    gm_s_list gm_list_list observation_list log_plot.

Definition demo_main_view (observation_list : option (list (list vec3)))
    (log_plot : bool) : result Controller :=
  main_view log_binary64 demo_embeddings demo_fields observation_list log_plot.

Definition demo_handler (observation_list : option (list (list vec3)))
    (log_plot : bool) : button -> M unit :=
  handler log_binary64 demo_embeddings demo_fields observation_list log_plot.

Definition demo_run (observation_list : option (list (list vec3)))
    (log_plot : bool) : list button -> Controller -> Controller :=
  run log_binary64 demo_embeddings demo_fields observation_list log_plot.

(** Controllers of the session in linear scale: at frames 0, 1 and 2 of
    [demo_observations], and at frame 0 of [stray_observations]. *)
Definition demo_c0 : Controller :=
  mkController 0 [1; 2]%float [0; 0]%float 0.

Definition demo_c1 : Controller :=
  mkController 1 [0; 3]%float [1; 0]%float 1.

Definition demo_c2 : Controller :=
  mkController 2 [-1; 4]%float [0; 0]%float 2.

Definition stray_c0 : Controller :=
  mkController 0 [1; 2]%float [0; 1]%float 0.

(** The smallest positive binary64, 2^-1074. *)
Definition smallest_subnormal : float := 0x1p-1074%float.

(** Bitwise comparison of two arrays, to tell concrete arrays apart. *)
Fixpoint same_floats (a b : list float) : bool :=
  match a, b with
  | [], [] => true
  | x :: a', y :: b' => PrimFloat.Leibniz.eqb x y && same_floats a' b'
  | _, _ => false
  end.

(** ** The sensor labels and the whole scenes

    [dataset.sensor_list] is a list of sensors of which the code reads
    ['name'] only: it is modelled as the list of those names. *)

(** Lines 25-27, 107-109 and 259-261:
    [for i, x in enumerate(embeddings): mlab.text3d(x[0], x[1], x[2],
    dataset.sensor_list[i]['name'], ...)], as the list of labels drawn. *)
Fixpoint text3d_labels_from (i : nat) (embeddings : list vec3)
    (sensor_list : list string) : result (list (vec3 * string)) :=
  match embeddings with
  | [] => Ok []
  | x :: rest =>
      (let* name := py_getitem sensor_list (Z.of_nat i) in
       let* labels := text3d_labels_from (S i) rest sensor_list in
       Ok ((x, name) :: labels))%res
  end.

Definition text3d_labels (embeddings : list vec3) (sensor_list : list string)
  : result (list (vec3 * string)) :=
  text3d_labels_from 0 embeddings sensor_list.

(** Lines 9-34: the labels [plot3d_sensor_vector] draws. *)
Definition plot3d_sensor_vector (sensor_list : list string)
    (embeddings : list vec3) : result (list (vec3 * string)) :=
  text3d_labels embeddings sensor_list.

Section Scenes.

Variable np_log : float -> float.
Variable GM : Type.
Variable gm_calculate : GM -> list float.

(** Lines 66-116 of [plot3d_sensor_with_gm]: the contour scalar, the
    observation points (lines 100-105: the rows of
    [np.block(observation).T], and [np.block] raises ValueError on an empty
    list) and the labels. *)
Definition plot3d_sensor_with_gm_scene (sensor_list : list string)
    (embeddings : list vec3) (gm_s : option (list float))
    (gm_list : option GM) (observation : option (list vec3))
    (log_plot : bool)
  : result (list float * list vec3 * list (vec3 * string)) :=
  (let* contour_s := plot3d_sensor_with_gm np_log GM gm_calculate gm_s gm_list
                       log_plot in
   let* obs_points :=
     match observation with
     | None => Ok []
     | Some [] => Raise ValueError
     | Some obs_array => Ok obs_array
     end in
   let* labels := text3d_labels embeddings sensor_list in
   Ok (contour_s, obs_points, labels))%res.

(** Lines 146-275 of [animate_sensor_with_gm] with the labels of lines
    259-261, drawn before the controller is created. *)
Definition animate_sensor_with_gm_scene (sensor_list : list string)
    (embeddings : list vec3)
    (gm_s_list : option (list (list float)))
    (gm_list_list : option (list GM))
    (observation_list : option (list (list vec3)))
    (log_plot : bool) : result (Controller * list (vec3 * string)) :=
  (let* gm_s_list :=
     match gm_s_list with
     | Some l => Ok l
     | None =>
         match gm_list_list with
         | None => Raise ValueError
         | Some gll => Ok (map gm_calculate gll)
         end
     end in
   let* gm_s := py_getitem gm_s_list 0 in
   let contour_s := contour_s_of np_log log_plot gm_s in
   let color_vector := np_zeros (length embeddings) in
   let* color_vector :=
     match observation_list with
     | None => Ok color_vector
     | Some ol =>
         let* obs_array := py_getitem ol 0 in
         let* obs_index := obs_index_of embeddings obs_array in
         np_setitems color_vector obs_index 1%float
     end in
   let* labels := text3d_labels embeddings sensor_list in
   Ok (mkController 0 contour_s color_vector 0, labels))%res.

End Scenes.

(** The index a button leads to from index [i] among [n] frames: the guards
    of lines 179 and 185. *)
Definition step_index (n : Z) (i : Z) (b : button) : Z :=
  match b with
  | next_frame => if i + 1 <? n then i + 1 else i
  | previous_frame => if i - 1 >=? 0 then i - 1 else i
  end.

(** The scalar [plot3d_sensor_with_gm] plots: the one given, else the
    mixture sampled. *)
Definition scalar_of {GM : Type} (gm_calculate : GM -> list float)
    (gm_s : option (list float)) (gm_list : option GM) : list float :=
  match gm_s, gm_list with
  | Some g, _ => g
  | None, Some gl => gm_calculate gl
  | None, None => []
  end.

(** An entry of a highlight vector: 0.0 or 1.0. *)
Definition is_flag (x : float) : Prop := x = 0%float \/ x = 1%float.

(** One of the coordinates is a NaN. *)
Definition has_nan (v : vec3) : bool :=
  let '(a, b, c) := v in is_nan a || is_nan b || is_nan c.

(** More of the example session: the first controller of the stray
    session in log scale, two sensors at one position, an observation list
    with an entry for frame 0 only, two orders of the same observations,
    and sensor names. *)
Definition stray_log_c0 : Controller :=
  mkController 0 (contour_s_of log_binary64 true [1; 2]%float) [0; 1]%float 0.

Definition twin_embeddings : list vec3 := [(0, 0, 0); (0, 0, 0)]%float.

Definition short_observations : option (list (list vec3)) := Some [[]].

Definition repeated_observations : list (list vec3) :=
  [[(0, 0, 0); (1, 1, 1); (0, 0, 0)]%float].

Definition reordered_observations : list (list vec3) :=
  [[(1, 1, 1); (0, 0, 0)]%float].

Definition demo_sensor_list : list string := ["M001"; "M002"; "D001"]%string.

(** ** Lookup *)

Lemma mask_vec_eqb (embeddings : list vec3) (v : vec3) :
  np_all_axis1 (np_equal embeddings v) = map (fun p => vec_eqb p v) embeddings.
Proof.
  unfold np_all_axis1, np_equal. rewrite map_map.
  apply map_ext. intros [[x y] z]. destruct v as [[a b] c]. reflexivity.
Qed.

Lemma np_where_from_find (embeddings : list vec3) (v : vec3) (k : nat) :
  np_first (np_where_from k (map (fun p => vec_eqb p v) embeddings)) =
  match list_find (fun p => Is_true (vec_eqb p v)) embeddings with
  | Some (i, _) => Ok (k + i)%nat
  | None => Raise IndexError
  end.
Proof.
  revert k. induction embeddings as [|p l IH]; intros k; [reflexivity|].
  cbn [map np_where_from list_find]. destruct (vec_eqb p v) eqn:E.
  - rewrite decide_True by exact I. cbn. f_equal. lia.
  - rewrite decide_False by (intros H; exact H). rewrite IH.
    destruct (list_find _ l) as [[i q]|]; cbn; [f_equal; lia | reflexivity].
Qed.

Lemma lookup_exact_find (embeddings : list vec3) (v : vec3) :
  lookup_exact embeddings v =
  match list_find (fun p => Is_true (vec_eqb p v)) embeddings with
  | Some (i, _) => Ok i
  | None => Raise IndexError
  end.
Proof.
  unfold lookup_exact, np_where. rewrite mask_vec_eqb, np_where_from_find.
  reflexivity.
Qed.

Lemma lookup_exact_Ok (embeddings : list vec3) (v : vec3) (i : nat) :
  lookup_exact embeddings v = Ok i <-> first_match embeddings v i.
Proof.
  rewrite lookup_exact_find. unfold first_match. split.
  - destruct (list_find _ embeddings) as [[k p]|] eqn:E; [|discriminate].
    intros [= ->]. apply list_find_Some in E as (Hp & Hv & Hlt).
    split.
    + exists p. split; [exact Hp|]. apply Is_true_true. exact Hv.
    + intros j q Hj Hq. specialize (Hlt j q Hq Hj).
      destruct (vec_eqb q v); [destruct Hlt; exact I | reflexivity].
  - intros [(p & Hp & Hv) Hlt].
    assert (list_find (fun p => Is_true (vec_eqb p v)) embeddings = Some (i, p))
      as ->; [|reflexivity].
    apply list_find_Some. split; [exact Hp|]. split.
    + apply Is_true_true. exact Hv.
    + intros j q Hq Hj. rewrite (Hlt j q Hj Hq). intros [].
Qed.

Lemma lookup_exact_Raise (embeddings : list vec3) (v : vec3) (e : exn) :
  lookup_exact embeddings v = Raise e <-> e = IndexError /\ no_match embeddings v.
Proof.
  rewrite lookup_exact_find. unfold no_match. split.
  - destruct (list_find _ embeddings) as [[k p]|] eqn:E; [discriminate|].
    intros [= <-]. split; [reflexivity|]. intros p Hp.
    apply list_find_None in E. rewrite Forall_forall in E.
    specialize (E p Hp). destruct (vec_eqb p v); [destruct E; exact I | reflexivity].
  - intros [-> Hno].
    assert (list_find (fun p => Is_true (vec_eqb p v)) embeddings = None)
      as ->; [|reflexivity].
    apply list_find_None. rewrite Forall_forall. intros p Hp.
    rewrite (Hno p Hp). intros [].
Qed.

Lemma lookup_exact_lt (embeddings : list vec3) (v : vec3) (i : nat) :
  lookup_exact embeddings v = Ok i -> (i < length embeddings)%nat.
Proof.
  intros H. apply lookup_exact_Ok in H as [(p & Hp & _) _].
  eapply lookup_lt_Some. exact Hp.
Qed.

Example lookup_exact_lowest :
  lookup_exact [(0, 0, 0); (1, 1, 1); (1, 1, 1)]%float (1, 1, 1)%float
  = Ok 1%nat.
Proof. reflexivity. Qed.

Example lookup_exact_near_miss :
  lookup_exact demo_embeddings (1, 1, 1.5)%float = Raise IndexError.
Proof. reflexivity. Qed.

Example lookup_exact_signed_zero :
  lookup_exact demo_embeddings (0, (-0), 0)%float = Ok 0%nat.
Proof. reflexivity. Qed.

Example lookup_exact_nan :
  lookup_exact [(nan, 0, 0)%float] (nan, 0, 0)%float = Raise IndexError.
Proof. reflexivity. Qed.

(** C2. [lookup_exact] matches by exact floating-point equality: it returns
    [i] exactly when [i] is the lowest index whose position equals the query;
    it returns such an index whenever some position equals the query; and it
    raises IndexError (the spec's NotFoundError) exactly when no registered
    position equals the query. *)
Theorem lookup_exact_first_match (embeddings : list vec3) (v : vec3) :
  (forall i, lookup_exact embeddings v = Ok i <-> first_match embeddings v i) /\
  ((exists p, p ∈ embeddings /\ vec_eqb p v = true) <->
   exists i, lookup_exact embeddings v = Ok i) /\
  (lookup_exact embeddings v = Raise IndexError <-> no_match embeddings v).
Proof.
  split; [intros i; apply lookup_exact_Ok|]. split.
  - split.
    + intros (p & Hp & Hv).
      destruct (lookup_exact embeddings v) as [i|e] eqn:E; [eauto|].
      apply lookup_exact_Raise in E as [_ Hno].
      rewrite (Hno p Hp) in Hv. discriminate.
    + intros [i Hi]. apply lookup_exact_Ok in Hi as [(p & Hp & Hv) _].
      exists p. split; [|exact Hv]. apply list_elem_of_lookup. eauto.
  - rewrite lookup_exact_Raise. intuition.
Qed.

(** ** The index list of a frame and the colour vector *)

Lemma obs_index_of_Ok (embeddings : list vec3) (obs : list vec3) (idx : list nat) :
  obs_index_of embeddings obs = Ok idx <->
  Forall2 (fun v i => lookup_exact embeddings v = Ok i) obs idx.
Proof.
  revert idx. induction obs as [|v obs IH]; intros idx; cbn.
  - split; [intros [= <-]; constructor | intros H; inversion H; reflexivity].
  - destruct (lookup_exact embeddings v) as [i|e] eqn:Ev; cbn.
    + destruct (obs_index_of embeddings obs) as [js|e] eqn:Eo; cbn.
      * split.
        -- intros [= <-]. constructor; [exact Ev | apply IH; reflexivity].
        -- intros H. inversion H as [|? i' ? js' Hi Hjs]; subst.
           apply IH in Hjs. congruence.
      * split; [discriminate|]. intros H.
        inversion H as [|? i' ? js' Hi Hjs]; subst.
        apply IH in Hjs. discriminate.
    + split; [discriminate|]. intros H.
      inversion H as [|? i' ? js' Hi Hjs]; subst. congruence.
Qed.

Lemma obs_index_of_Raise_inv (embeddings : list vec3) (obs : list vec3) (e : exn) :
  obs_index_of embeddings obs = Raise e ->
  e = IndexError /\ exists v, v ∈ obs /\ no_match embeddings v.
Proof.
  induction obs as [|v obs IH]; cbn; [discriminate|].
  destruct (lookup_exact embeddings v) as [i|e'] eqn:Ev; cbn.
  - destruct (obs_index_of embeddings obs) as [js|e'] eqn:Eo; cbn;
      [discriminate|].
    intros [= ->]. destruct (IH eq_refl) as (He & w & Hw & Hno).
    split; [exact He|]. exists w. split; [right; exact Hw | exact Hno].
  - intros [= ->]. apply lookup_exact_Raise in Ev as [-> Hno].
    split; [reflexivity|]. exists v. split; [left | exact Hno].
Qed.

Lemma obs_index_of_unmatched (embeddings : list vec3) (obs : list vec3) (v : vec3) :
  v ∈ obs -> no_match embeddings v ->
  obs_index_of embeddings obs = Raise IndexError.
Proof.
  intros Hv Hno.
  destruct (obs_index_of embeddings obs) as [idx|e] eqn:E.
  - apply obs_index_of_Ok in E.
    apply list_elem_of_lookup_1 in Hv as [j Hj].
    destruct (Forall2_lookup_l _ _ _ _ _ E Hj) as (k & _ & Hk).
    assert (lookup_exact embeddings v = Raise IndexError) as Hr
      by (apply lookup_exact_Raise; auto).
    congruence.
  - apply obs_index_of_Raise_inv in E as [-> _]. reflexivity.
Qed.

Lemma obs_index_of_lt (embeddings : list vec3) (obs : list vec3) (idx : list nat) :
  obs_index_of embeddings obs = Ok idx ->
  Forall (fun i => (i < length embeddings)%nat) idx.
Proof.
  intros H. apply obs_index_of_Ok in H.
  induction H as [|v i obs idx Hv _ IH]; constructor; [|exact IH].
  eapply lookup_exact_lt. exact Hv.
Qed.

Lemma obs_index_of_elem (embeddings : list vec3) (obs : list vec3)
    (idx : list nat) (k : nat) :
  obs_index_of embeddings obs = Ok idx ->
  k ∈ idx <-> highlighted embeddings obs k.
Proof.
  intros H. apply obs_index_of_Ok in H. unfold highlighted.
  induction H as [|v i obs idx Hv _ IH].
  - split; [intros Hk; inversion Hk | intros (v & Hv & _); inversion Hv].
  - rewrite elem_of_cons, IH. split.
    + intros [->|(w & Hw & Hk)]; [exists v | exists w]; split; auto;
        [left | right; exact Hw].
    + intros (w & Hw & Hk). apply elem_of_cons in Hw as [->|Hw].
      * left. congruence.
      * right. eauto.
Qed.

Lemma resolvable_obs_index (embeddings : list vec3) (obs : list vec3) :
  forallb (fun v => existsb (fun p => vec_eqb p v) embeddings) obs = true ->
  exists idx, obs_index_of embeddings obs = Ok idx.
Proof.
  intros H. destruct (obs_index_of embeddings obs) as [idx|e] eqn:E; [eauto|].
  apply obs_index_of_Raise_inv in E as (_ & v & Hv & Hno).
  rewrite forallb_forall in H. apply list_elem_of_In in Hv.
  specialize (H v Hv). apply existsb_exists in H as (p & Hp & Hpv).
  apply list_elem_of_In in Hp. rewrite (Hno p Hp) in Hpv. discriminate.
Qed.

Section SetItems.

Variable x : float.

Local Abbreviation store := (foldl (fun acc i => <[i := x]> acc)).

Lemma store_length (idx : list nat) (a : list float) :
  length (store a idx) = length a.
Proof.
  revert a. induction idx as [|i idx IH]; intros a; cbn; [reflexivity|].
  rewrite IH. apply length_insert.
Qed.

Lemma store_lookup_notin (idx : list nat) (a : list float) (k : nat) :
  k ∉ idx -> store a idx !! k = a !! k.
Proof.
  revert a. induction idx as [|i idx IH]; intros a Hk; cbn; [reflexivity|].
  apply not_elem_of_cons in Hk as [Hki Hk].
  rewrite IH by exact Hk. apply list_lookup_insert_ne. congruence.
Qed.

Lemma store_lookup_in (idx : list nat) (a : list float) (k : nat) :
  k ∈ idx -> (k < length a)%nat -> store a idx !! k = Some x.
Proof.
  revert a. induction idx as [|i idx IH]; intros a Hk Hlt; cbn.
  - inversion Hk.
  - destruct (decide (k ∈ idx)) as [Hin|Hnotin].
    + apply IH; [exact Hin|]. rewrite length_insert. exact Hlt.
    + rewrite store_lookup_notin by exact Hnotin.
      apply elem_of_cons in Hk as [->|Hk]; [|contradiction].
      apply list_lookup_insert_eq. exact Hlt.
Qed.

Lemma np_setitems_Ok (a : list float) (idx : list nat) (c : list float) :
  np_setitems a idx x = Ok c -> c = store a idx.
Proof.
  unfold np_setitems. destruct (forallb _ idx); [|discriminate].
  intros [= <-]. reflexivity.
Qed.

Lemma np_setitems_in_range (a : list float) (idx : list nat) :
  Forall (fun i => (i < length a)%nat) idx ->
  np_setitems a idx x = Ok (store a idx).
Proof.
  intros H. unfold np_setitems.
  assert (forallb (fun i => Nat.ltb i (length a)) idx = true) as ->;
    [|reflexivity].
  apply forallb_forall. intros i Hi. apply Nat.ltb_lt.
  rewrite Forall_forall in H. apply H. apply list_elem_of_In. exact Hi.
Qed.

End SetItems.

Lemma lookup_np_zeros (n k : nat) :
  (k < n)%nat -> np_zeros n !! k = Some 0%float.
Proof. intros H. unfold np_zeros. apply lookup_replicate_2. exact H. Qed.

Lemma py_getitem_in_range {A} (l : list A) (i : Z) :
  0 <= i < len l ->
  exists x, py_getitem l i = Ok x /\ l !! Z.to_nat i = Some x.
Proof.
  intros Hi. unfold py_getitem, len in *.
  destruct (Z.ltb_spec i 0) as [?|_]; [lia|].
  destruct (Z.leb_spec 0 i) as [_|?]; [|lia].
  destruct (Z.ltb_spec i (Z.of_nat (length l))) as [_|?]; [|lia]. cbn.
  destruct (l !! Z.to_nat i) as [x|] eqn:E; [eauto|].
  apply lookup_ge_None in E. lia.
Qed.

Lemma py_getitem_0_cons {A} (x : A) (l : list A) : py_getitem (x :: l) 0 = Ok x.
Proof. reflexivity. Qed.

(** ** The controller: what one call does *)

Ltac step_M :=
  unfold bindM, gets, modify, liftR, ret; cbn [fst snd].

Section ControllerFacts.

Variable np_log : float -> float.
Variable embeddings : list vec3.
Variable gm_s_list : list (list float).
Variable observation_list : option (list (list vec3)).
Variable log_plot : bool.

Local Abbreviation update_frame' :=
  (update_frame np_log embeddings gm_s_list observation_list log_plot).
Local Abbreviation next' :=
  (_next_frame_changed np_log embeddings gm_s_list observation_list log_plot).
Local Abbreviation previous' :=
  (_previous_frame_changed np_log embeddings gm_s_list observation_list log_plot).
Local Abbreviation handler' :=
  (handler np_log embeddings gm_s_list observation_list log_plot).
Local Abbreviation run' :=
  (run np_log embeddings gm_s_list observation_list log_plot).
Local Abbreviation main_view' :=
  (main_view np_log embeddings gm_s_list observation_list log_plot).
Local Abbreviation frame_scalars' := (frame_scalars np_log gm_s_list log_plot).
Local Abbreviation frame_colors' := (frame_colors embeddings observation_list).
Local Abbreviation shown' :=
  (shown np_log embeddings gm_s_list observation_list log_plot).
Local Abbreviation frame_observations' :=
  (frame_observations observation_list).
Local Abbreviation resolvable' := (resolvable embeddings observation_list).
Local Abbreviation all_resolvable' :=
  (all_resolvable embeddings gm_s_list observation_list).
Local Abbreviation mask_of' := (mask_of embeddings).
Local Abbreviation contour_s_of' := (contour_s_of np_log log_plot).
Local Abbreviation in_range' := (in_range embeddings gm_s_list).
Local Abbreviation press' :=
  (press np_log embeddings gm_s_list observation_list log_plot).

(** *** The two halves of a displayed frame *)

Lemma frame_scalars_in_range (i : Z) :
  0 <= i < len gm_s_list ->
  exists gm_s, py_getitem gm_s_list i = Ok gm_s /\
               frame_scalars' i = Ok (contour_s_of' gm_s).
Proof.
  intros Hi. destruct (py_getitem_in_range gm_s_list i Hi) as (gm_s & Hg & _).
  exists gm_s. split; [exact Hg|]. unfold frame_scalars. rewrite Hg. reflexivity.
Qed.

Lemma frame_colors_length (n : nat) (i : Z) (c : list float) :
  frame_colors' n i = Ok c -> length c = n.
Proof.
  unfold frame_colors. destruct observation_list as [ol|].
  - destruct (py_getitem ol i) as [obs|e]; cbn; [|discriminate].
    destruct (obs_index_of embeddings obs) as [idx|e]; cbn; [|discriminate].
    intros H. apply np_setitems_Ok in H as ->.
    rewrite store_length. apply length_replicate.
  - intros [= <-]. apply length_replicate.
Qed.

Lemma frame_colors_mask (i : Z) (c : list float) :
  frame_colors' (length embeddings) i = Ok c ->
  exists obs, frame_observations' i = Ok obs /\ mask_of' obs c.
Proof.
  intros H. pose proof (frame_colors_length _ _ _ H) as Hlen.
  unfold frame_colors, frame_observations in *.
  destruct observation_list as [ol|].
  - destruct (py_getitem ol i) as [obs|e]; cbn in H; [|discriminate].
    exists obs. split; [reflexivity|].
    destruct (obs_index_of embeddings obs) as [idx|e] eqn:E; cbn in H;
      [|discriminate].
    apply np_setitems_Ok in H as ->. split; [exact Hlen|].
    intros k Hk. rewrite <- (obs_index_of_elem _ _ _ k E). split.
    + intros Hin. apply store_lookup_in; [exact Hin|].
      unfold np_zeros. rewrite length_replicate. exact Hk.
    + intros Hnot. rewrite store_lookup_notin by exact Hnot.
      apply lookup_np_zeros. exact Hk.
  - exists []. split; [reflexivity|]. injection H as <-.
    split; [exact Hlen|]. intros k Hk. split.
    + intros (v & Hv & _). inversion Hv.
    + intros _. apply lookup_np_zeros. exact Hk.
Qed.

Lemma frame_colors_resolvable (i : Z) :
  resolvable' i = true ->
  exists c, frame_colors' (length embeddings) i = Ok c.
Proof.
  unfold resolvable, frame_colors, frame_observations.
  destruct observation_list as [ol|]; [|eauto].
  destruct (py_getitem ol i) as [obs|e]; cbn; [|discriminate].
  intros H. destruct (resolvable_obs_index _ _ H) as [idx E].
  rewrite E. cbn. eexists. apply np_setitems_in_range.
  unfold np_zeros. rewrite length_replicate.
  eapply obs_index_of_lt. exact E.
Qed.

Lemma frame_colors_unmatched (n : nat) (i : Z) (obs : list vec3) (v : vec3) :
  frame_observations' i = Ok obs -> v ∈ obs -> no_match embeddings v ->
  frame_colors' n i = Raise IndexError.
Proof.
  unfold frame_colors, frame_observations.
  destruct observation_list as [ol|].
  - intros -> Hv Hno. cbn.
    rewrite (obs_index_of_unmatched _ _ _ Hv Hno). reflexivity.
  - intros [= <-] Hv. inversion Hv.
Qed.

(** *** The handlers *)

(** [update_frame] by cases, with the object as each exit leaves it. *)
Lemma update_frame_cases (self : Controller) :
  update_frame' self =
  let i := current_frame self in
  let n := length (color_vector self) in
  match frame_scalars' i with
  | Raise e => (Raise e, self)
  | Ok f =>
      match frame_colors' n i with
      | Raise e => (Raise e, mkController i f (np_zeros n) (draws self))
      | Ok c => (Ok tt, mkController i f c (S (draws self)))
      end
  end.
Proof.
  destruct self as [i f0 c0 d].
  unfold update_frame, frame_scalars, frame_colors. step_M. cbn.
  destruct (py_getitem gm_s_list i) as [gm_s|e]; cbn; [|reflexivity].
  unfold np_zeros.
  destruct observation_list as [ol|]; cbn; [|reflexivity].
  destruct (py_getitem ol i) as [obs|e]; cbn; [|reflexivity].
  destruct (obs_index_of embeddings obs) as [idx|e]; cbn; [|reflexivity].
  destruct (np_setitems _ idx 1%float) as [c'|e]; cbn; reflexivity.
Qed.

Lemma next_cases (self : Controller) :
  next' self =
  if current_frame self + 1 <? len gm_s_list
  then update_frame' (set_current_frame (current_frame self + 1) self)
  else (Ok tt, self).
Proof.
  unfold _next_frame_changed. step_M.
  destruct (current_frame self + 1 <? len gm_s_list); reflexivity.
Qed.

Lemma previous_cases (self : Controller) :
  previous' self =
  if current_frame self - 1 >=? 0
  then update_frame' (set_current_frame (current_frame self - 1) self)
  else (Ok tt, self).
Proof.
  unfold _previous_frame_changed. step_M.
  destruct (current_frame self - 1 >=? 0); reflexivity.
Qed.

Lemma handler_moves (b : button) (self : Controller) :
  0 <= target b (current_frame self) < len gm_s_list ->
  handler' b self =
  update_frame' (set_current_frame (target b (current_frame self)) self).
Proof.
  intros H. destruct b; cbn [handler target] in *.
  - rewrite next_cases.
    destruct (Z.ltb_spec (current_frame self + 1) (len gm_s_list)); [reflexivity|lia].
  - rewrite previous_cases. unfold Z.geb.
    destruct (Z.compare_spec (current_frame self - 1) 0); first [reflexivity|lia].
Qed.

Lemma handler_stays (b : button) (self : Controller) :
  0 <= current_frame self < len gm_s_list ->
  ~ 0 <= target b (current_frame self) < len gm_s_list ->
  handler' b self = (Ok tt, self).
Proof.
  intros Hi H. destruct b; cbn [handler target] in *.
  - rewrite next_cases.
    destruct (Z.ltb_spec (current_frame self + 1) (len gm_s_list)); [lia|reflexivity].
  - rewrite previous_cases. unfold Z.geb.
    destruct (Z.compare_spec (current_frame self - 1) 0); first [reflexivity|lia].
Qed.

Lemma update_frame_current (self : Controller) :
  current_frame (snd (update_frame' self)) = current_frame self.
Proof.
  rewrite update_frame_cases. cbv zeta.
  destruct (frame_scalars' _) as [f|e]; [|reflexivity].
  destruct (frame_colors' _ _) as [c|e]; reflexivity.
Qed.

Lemma update_frame_length (self : Controller) :
  length (color_vector (snd (update_frame' self))) =
  length (color_vector self).
Proof.
  rewrite update_frame_cases. cbv zeta.
  destruct (frame_scalars' _) as [f|e]; [|reflexivity].
  destruct (frame_colors' _ _) as [c|e] eqn:E; cbn.
  - eapply frame_colors_length. exact E.
  - apply length_replicate.
Qed.

Lemma press_in_range (b : button) (self : Controller) :
  in_range' self ->
  in_range' (press' self b).
Proof.
  intros [Hi Hl]. unfold press, in_range.
  destruct (decide (0 <= target b (current_frame self) < len gm_s_list))
    as [Ht|Ht].
  - rewrite handler_moves by exact Ht.
    rewrite update_frame_current, update_frame_length. cbn. auto.
  - rewrite handler_stays by assumption. cbn. auto.
Qed.

Lemma run_in_range (bs : list button) (self : Controller) :
  in_range' self -> in_range' (run' bs self).
Proof.
  revert self. unfold run.
  induction bs as [|b bs IH]; intros self H; cbn; [exact H|].
  apply IH. apply press_in_range. exact H.
Qed.

Lemma main_view_Ok (c0 : Controller) :
  main_view' = Ok c0 ->
  current_frame c0 = 0 /\ draws c0 = 0%nat /\
  frame_scalars' 0 = Ok (phd_scalars c0) /\
  frame_colors' (length embeddings) 0 = Ok (color_vector c0).
Proof.
  unfold main_view, frame_scalars, frame_colors.
  destruct (py_getitem gm_s_list 0) as [gm_s|e]; cbn; [|discriminate].
  destruct observation_list as [ol|]; cbn.
  - destruct (py_getitem ol 0) as [obs|e]; cbn; [|discriminate].
    destruct (obs_index_of embeddings obs) as [idx|e]; cbn; [|discriminate].
    destruct (np_setitems _ idx 1%float) as [c|e]; cbn; [|discriminate].
    intros [= <-]. cbn. auto.
  - intros [= <-]. cbn. auto.
Qed.

Lemma main_view_nonempty (c0 : Controller) :
  main_view' = Ok c0 -> 1 <= len gm_s_list.
Proof.
  unfold main_view, py_getitem, len.
  destruct gm_s_list as [|g l]; cbn; [discriminate|]. lia.
Qed.

Lemma main_view_in_range (c0 : Controller) :
  main_view' = Ok c0 -> in_range' c0.
Proof.
  intros H. pose proof (main_view_nonempty _ H) as Hn.
  apply main_view_Ok in H as (Hc & _ & _ & Hcol).
  split; [lia|]. eapply frame_colors_length. exact Hcol.
Qed.

(** C3. From the controller [main_view] builds, whatever buttons are
    pressed and whether or not a handler raised on the way, the current
    frame index stays within [0, N-1], N the number of frames (N >= 1
    whenever [main_view] returns). *)
Theorem current_frame_in_range (c0 : Controller) (bs : list button) :
  main_view' = Ok c0 ->
  1 <= len gm_s_list /\
  0 <= current_frame (run' bs c0) <= len gm_s_list - 1.
Proof.
  intros H. split; [eapply main_view_nonempty; exact H|].
  destruct (run_in_range bs c0 (main_view_in_range _ H)) as [Hi _]. lia.
Qed.

(** C4. At the boundaries the handlers change nothing: at frame 0
    [_previous_frame_changed] returns with the controller as it was, and at
    frame N-1 so does [_next_frame_changed]; the index, the displayed
    field, the highlight vector and the number of draw calls are those of
    before the call. *)
Theorem boundary_navigation_noop (self : Controller) :
  (current_frame self = 0 -> previous' self = (Ok tt, self)) /\
  (current_frame self = len gm_s_list - 1 -> next' self = (Ok tt, self)).
Proof.
  split; intros H.
  - rewrite previous_cases, H. reflexivity.
  - rewrite next_cases, H.
    destruct (Z.ltb_spec (len gm_s_list - 1 + 1) (len gm_s_list));
      [lia|reflexivity].
Qed.

(** *** A step into a frame *)

Lemma handler_Ok_moved (b : button) (self s' : Controller) :
  in_range' self ->
  handler' b self = (Ok tt, s') ->
  current_frame s' <> current_frame self ->
  current_frame s' = target b (current_frame self) /\
  0 <= current_frame s' < len gm_s_list /\
  frame_scalars' (current_frame s') = Ok (phd_scalars s') /\
  frame_colors' (length embeddings) (current_frame s') = Ok (color_vector s') /\
  draws s' = S (draws self).
Proof.
  intros [Hi Hl] H Hmove.
  destruct (decide (0 <= target b (current_frame self) < len gm_s_list))
    as [Ht|Ht].
  - rewrite handler_moves in H by exact Ht.
    rewrite update_frame_cases in H. cbn in H. rewrite Hl in H.
    destruct (frame_scalars' _) as [f|e] eqn:Ef; [|discriminate].
    destruct (frame_colors' _ _) as [c|e] eqn:Ec; [|discriminate].
    injection H as <-. cbn. auto.
  - rewrite handler_stays in H by assumption.
    injection H as <-. contradiction.
Qed.

Lemma mask_of_nil (c : list float) :
  mask_of' [] c -> c = np_zeros (length embeddings).
Proof.
  intros [Hlen Hk]. apply list_eq. intros k.
  destruct (decide (k < length embeddings)%nat) as [Hlt|Hge].
  - rewrite lookup_np_zeros by exact Hlt. apply Hk; [exact Hlt|].
    intros (v & Hv & _). inversion Hv.
  - rewrite !(proj2 (lookup_ge_None _ _)); [reflexivity| |].
    + unfold np_zeros. rewrite length_replicate. lia.
    + lia.
Qed.

(** *** Displaying the current frame is an invariant *)

Lemma all_resolvable_at (i : Z) :
  all_resolvable' = true -> 0 <= i < len gm_s_list -> resolvable' i = true.
Proof.
  unfold all_resolvable. rewrite forallb_forall. intros H Hi.
  apply H. apply list_elem_of_In. apply elem_of_seqZ. lia.
Qed.

Lemma handler_shows (b : button) (self : Controller) :
  all_resolvable' = true -> in_range' self -> shown' self ->
  exists s', handler' b self = (Ok tt, s') /\ shown' s' /\
    current_frame s' =
    (if decide (0 <= target b (current_frame self) < len gm_s_list)
     then target b (current_frame self) else current_frame self).
Proof.
  intros Hall [Hi Hl] Hs.
  destruct (decide (0 <= target b (current_frame self) < len gm_s_list))
    as [Ht|Ht].
  - rewrite handler_moves by exact Ht. rewrite update_frame_cases. cbn.
    destruct (frame_scalars_in_range _ Ht) as (gm_s & _ & Hf).
    destruct (frame_colors_resolvable _ (all_resolvable_at _ Hall Ht))
      as [c Hc].
    rewrite Hf, Hl, Hc.
    eexists. split; [reflexivity|]. split; [|reflexivity].
    split; cbn; assumption.
  - rewrite handler_stays by assumption. eauto.
Qed.

Lemma run_shown (bs : list button) (self : Controller) :
  all_resolvable' = true -> in_range' self -> shown' self ->
  shown' (run' bs self).
Proof.
  intros Hall. revert self. unfold run.
  induction bs as [|b bs IH]; intros self Hr Hs; cbn; [exact Hs|].
  apply IH; [apply press_in_range; exact Hr|].
  unfold press. destruct (handler_shows b self Hall Hr Hs) as (s' & -> & Hs' & _).
  exact Hs'.
Qed.

Lemma main_view_shown (c0 : Controller) : main_view' = Ok c0 -> shown' c0.
Proof.
  intros H. apply main_view_Ok in H as (Hc & _ & Hf & Hcol).
  unfold shown. rewrite Hc. auto.
Qed.

(** *** The claims about navigation *)

(** C1 (as the code has it). When a button asks for an existing frame one
    of whose observations equals no registered position, the handler raises
    IndexError (the spec's NotFoundError), and by then it has moved the
    controller: [current_frame] is the target index, the displayed field is
    the target frame's, the highlight vector is all zeros, and no draw has
    been requested. *)
Theorem navigation_raises_after_moving (b : button) (self : Controller)
    (obs : list vec3) (v : vec3) :
  0 <= target b (current_frame self) < len gm_s_list ->
  frame_observations' (target b (current_frame self)) = Ok obs ->
  v ∈ obs -> no_match embeddings v ->
  exists gm_s,
    py_getitem gm_s_list (target b (current_frame self)) = Ok gm_s /\
    handler' b self =
    (Raise IndexError,
     mkController (target b (current_frame self)) (contour_s_of' gm_s)
                  (np_zeros (length (color_vector self))) (draws self)).
Proof.
  intros Ht Hobs Hv Hno.
  destruct (frame_scalars_in_range _ Ht) as (gm_s & Hg & Hf).
  exists gm_s. split; [exact Hg|].
  rewrite handler_moves by exact Ht. rewrite update_frame_cases. cbn.
  rewrite Hf. rewrite (frame_colors_unmatched _ _ _ _ Hobs Hv Hno).
  reflexivity.
Qed.

(** C8. After a button press that moved the controller and returned
    normally, the highlight vector is the mask of the new current frame: one
    entry per registered sensor, 1.0 exactly at the indices [lookup_exact]
    resolves from the frame's observations and 0.0 elsewhere; with no
    observations it is all zeros. *)
Theorem highlight_mask_recomputed (c0 : Controller) (bs : list button)
    (b : button) (s' : Controller) :
  main_view' = Ok c0 ->
  handler' b (run' bs c0) = (Ok tt, s') ->
  current_frame s' <> current_frame (run' bs c0) ->
  exists obs,
    frame_observations' (current_frame s') = Ok obs /\
    mask_of' obs (color_vector s') /\
    (obs = [] -> color_vector s' = np_zeros (length embeddings)).
Proof.
  intros H0 H Hmove.
  pose proof (run_in_range bs c0 (main_view_in_range _ H0)) as Hr.
  destruct (handler_Ok_moved _ _ _ Hr H Hmove) as (_ & _ & _ & Hc & _).
  destruct (frame_colors_mask _ _ Hc) as (obs & Hobs & Hmask).
  exists obs. split; [exact Hobs|]. split; [exact Hmask|].
  intros ->. apply mask_of_nil. exact Hmask.
Qed.

(** C5. With every observation of every frame resolvable, from any
    controller reached from [main_view] whose index [i] is not the last,
    [_next_frame_changed] followed by [_previous_frame_changed] both return
    normally, pass through frame [i+1], and end at index [i] with the
    displayed field and the highlight vector of before the two calls. *)
Theorem forward_backward_round_trip (c0 : Controller) (bs : list button) :
  main_view' = Ok c0 ->
  all_resolvable' = true ->
  current_frame (run' bs c0) + 1 < len gm_s_list ->
  exists s1 s2,
    next' (run' bs c0) = (Ok tt, s1) /\
    previous' s1 = (Ok tt, s2) /\
    current_frame s1 = current_frame (run' bs c0) + 1 /\
    current_frame s2 = current_frame (run' bs c0) /\
    phd_scalars s2 = phd_scalars (run' bs c0) /\
    color_vector s2 = color_vector (run' bs c0).
Proof.
  intros H0 Hall Hi.
  pose proof (run_in_range bs c0 (main_view_in_range _ H0)) as Hr.
  pose proof (run_shown bs c0 Hall (main_view_in_range _ H0)
                (main_view_shown _ H0)) as Hs.
  set (s := run' bs c0) in *.
  destruct (handler_shows next_frame s Hall Hr Hs) as (s1 & H1 & Hs1 & Hc1).
  cbn [target handler] in H1, Hc1.
  destruct Hr as [Hlo Hl].
  rewrite decide_True in Hc1 by lia.
  assert (in_range' s1) as Hr1.
  { pose proof (press_in_range next_frame s (conj Hlo Hl)) as Hp.
    unfold press in Hp. cbn [handler] in Hp. rewrite H1 in Hp. exact Hp. }
  destruct (handler_shows previous_frame s1 Hall Hr1 Hs1)
    as (s2 & H2 & Hs2 & Hc2).
  cbn [target handler] in H2, Hc2.
  rewrite decide_True in Hc2 by lia.
  exists s1, s2. split; [exact H1|]. split; [exact H2|].
  split; [exact Hc1|].
  assert (current_frame s2 = current_frame s) as Hc by lia.
  split; [exact Hc|].
  destruct Hs as [Hf Hcol]. destruct Hs2 as [Hf2 Hcol2].
  rewrite Hc in Hf2, Hcol2. split; congruence.
Qed.

Lemma every_frame_reachable (c0 : Controller) (k : nat) :
  main_view' = Ok c0 -> all_resolvable' = true ->
  Z.of_nat k < len gm_s_list ->
  current_frame (run' (replicate k next_frame) c0) = Z.of_nat k.
Proof.
  intros H0 Hall. induction k as [|k IH]; intros Hk.
  - cbn. apply main_view_Ok in H0 as [-> _]. reflexivity.
  - rewrite replicate_S_end. unfold run in *. rewrite foldl_app. cbn.
    specialize (IH ltac:(lia)).
    pose proof (run_in_range (replicate k next_frame) c0
                  (main_view_in_range _ H0)) as Hr.
    pose proof (run_shown (replicate k next_frame) c0 Hall
                  (main_view_in_range _ H0) (main_view_shown _ H0)) as Hs.
    unfold run in Hr, Hs.
    destruct (handler_shows next_frame _ Hall Hr Hs) as (s' & Hh & _ & Hc).
    unfold press at 1. cbn [handler] in *. rewrite Hh. cbn [snd target] in *. rewrite Hc, IH.
    rewrite decide_True by lia. lia.
Qed.

End ControllerFacts.

(** ** The entry points *)

Section EntryFacts.

Variable np_log : float -> float.
Variable GM : Type.
Variable gm_calculate : GM -> list float.

Local Abbreviation animate' := (animate_sensor_with_gm np_log GM gm_calculate).
Local Abbreviation plot3d' := (plot3d_sensor_with_gm np_log GM gm_calculate).

Lemma animate_cases (embeddings : list vec3)
    (gm_s_list : option (list (list float))) (gm_list_list : option (list GM))
    (observation_list : option (list (list vec3))) (log_plot : bool) :
  animate' embeddings gm_s_list gm_list_list observation_list log_plot =
  match gm_s_list, gm_list_list with
  | None, None => Raise ValueError
  | _, _ =>
      main_view np_log embeddings (frames_of gm_calculate gm_s_list gm_list_list)
                observation_list log_plot
  end.
Proof.
  unfold animate_sensor_with_gm, frames_of.
  destruct gm_s_list as [l|]; [|destruct gm_list_list as [gll|]]; reflexivity.
Qed.

Lemma main_view_empty (embeddings : list vec3)
    (observation_list : option (list (list vec3))) (log_plot : bool) :
  main_view np_log embeddings [] observation_list log_plot = Raise IndexError.
Proof. reflexivity. Qed.

(** C10. Whatever the arguments, a controller [animate_sensor_with_gm]
    returns is at frame 0 and shows frame 0: the displayed field is the
    first frame's, transformed, and the highlight vector is the mask of the
    first observation set (all zeros without an observation list). *)
Theorem playback_starts_at_frame_0 (embeddings : list vec3)
    (gm_s_list : option (list (list float))) (gm_list_list : option (list GM))
    (observation_list : option (list (list vec3))) (log_plot : bool)
    (c0 : Controller) :
  animate' embeddings gm_s_list gm_list_list observation_list log_plot = Ok c0 ->
  current_frame c0 = 0 /\
  (exists gm_s rest,
     frames_of gm_calculate gm_s_list gm_list_list = gm_s :: rest /\
     phd_scalars c0 = contour_s_of np_log log_plot gm_s) /\
  match observation_list with
  | None => color_vector c0 = np_zeros (length embeddings)
  | Some ol =>
      exists obs rest, ol = obs :: rest /\
                       mask_of embeddings obs (color_vector c0)
  end.
Proof.
  rewrite animate_cases. intros H.
  assert (main_view np_log embeddings
            (frames_of gm_calculate gm_s_list gm_list_list)
            observation_list log_plot = Ok c0) as Hm.
  { destruct gm_s_list; [exact H|]. destruct gm_list_list; [exact H|discriminate]. }
  clear H. apply main_view_Ok in Hm as (Hc & _ & Hf & Hcol).
  split; [exact Hc|]. split.
  - unfold frame_scalars in Hf.
    destruct (frames_of gm_calculate gm_s_list gm_list_list) as [|gm_s rest];
      [discriminate|].
    exists gm_s, rest. split; [reflexivity|].
    rewrite py_getitem_0_cons in Hf. cbn in Hf. congruence.
  - destruct (frame_colors_mask _ _ _ _ Hcol) as (obs & Hobs & Hmask).
    unfold frame_observations in Hobs. destruct observation_list as [ol|].
    + destruct ol as [|o rest]; [discriminate|].
      rewrite py_getitem_0_cons in Hobs. injection Hobs as ->. eauto.
    + injection Hobs as <-. apply mask_of_nil. exact Hmask.
Qed.

(** C9 (as the code has it). Without scalars and without mixtures the
    argument check raises ValueError, in [animate_sensor_with_gm] and in
    [plot3d_sensor_with_gm]. An empty sequence of frames, given as scalars
    or as mixtures, passes that check and fails in [main_view] at
    [gm_s_list[0]], with IndexError. So a controller is only ever returned
    over a non-empty sequence of frames. *)
Theorem construction_failures (embeddings : list vec3)
    (gm_s_list : option (list (list float))) (gm_list_list : option (list GM))
    (observation_list : option (list (list vec3))) (log_plot : bool) :
  (gm_s_list = None -> gm_list_list = None ->
   animate' embeddings gm_s_list gm_list_list observation_list log_plot
   = Raise ValueError) /\
  (gm_s_list = Some [] ->
   animate' embeddings gm_s_list gm_list_list observation_list log_plot
   = Raise IndexError) /\
  (gm_s_list = None -> gm_list_list = Some [] ->
   animate' embeddings gm_s_list gm_list_list observation_list log_plot
   = Raise IndexError) /\
  (forall c0,
     animate' embeddings gm_s_list gm_list_list observation_list log_plot
     = Ok c0 ->
     frames_of gm_calculate gm_s_list gm_list_list <> []) /\
  plot3d' None None log_plot = Raise ValueError.
Proof.
  repeat split.
  - intros -> ->. reflexivity.
  - intros ->. reflexivity.
  - intros -> ->. reflexivity.
  - intros c0. rewrite animate_cases. intros H E. rewrite E in H.
    rewrite main_view_empty in H.
    destruct gm_s_list; [discriminate|].
    destruct gm_list_list; discriminate.
Qed.

(** C7 (as the code has it). In log scale nothing is checked and nothing
    is raised for the field: whatever the signs of its elements,
    [update_frame] stores [np.log(field + tiny)] as the displayed field, and
    it returns normally once the observations of the frame resolve;
    [plot3d_sensor_with_gm] likewise hands [np.log(gm_s + tiny)] on. *)
Theorem log_transform_never_raises (embeddings : list vec3)
    (gm_s_list : list (list float))
    (observation_list : option (list (list vec3)))
    (self : Controller) (gm_s : list float) (gm_list : option GM) :
  py_getitem gm_s_list (current_frame self) = Ok gm_s ->
  phd_scalars
    (snd (update_frame np_log embeddings gm_s_list observation_list true self))
  = map (fun x => np_log (x + tiny)%float) gm_s /\
  (length (color_vector self) = length embeddings ->
   resolvable embeddings observation_list (current_frame self) = true ->
   fst (update_frame np_log embeddings gm_s_list observation_list true self)
   = Ok tt) /\
  plot3d' (Some gm_s) gm_list true
  = Ok (map (fun x => np_log (x + tiny)%float) gm_s).
Proof.
  intros Hg. rewrite update_frame_cases. cbv zeta.
  unfold frame_scalars. rewrite Hg. cbn [bindR contour_s_of].
  split; [|split; [|reflexivity]].
  - destruct (frame_colors _ _ _ _) as [c|e]; reflexivity.
  - intros Hl Hres. rewrite Hl.
    destruct (frame_colors_resolvable _ _ _ Hres) as [c ->]. reflexivity.
Qed.

(** C6 (as the code has it). The transform is a function of the field and
    of [log_plot] alone: in linear scale it returns the field as it is, in
    log scale [np.log(field + tiny)] element by element. The offset is not
    an argument; it is always [tiny] = 2^-1022, the smallest positive
    normal binary64: [tiny] is normal and the float just below it is
    subnormal. *)
Theorem field_transform (gm_s : list float) :
  contour_s_of np_log false gm_s = gm_s /\
  contour_s_of np_log true gm_s = map (fun x => np_log (x + tiny)%float) gm_s /\
  tiny = 0x1p-1022%float /\
  classify tiny = PNormal /\
  classify (next_down tiny) = PSubn.
Proof. repeat split. Qed.

End EntryFacts.

(** ** The example session *)

Ltac floats_differ :=
  let H := fresh in
  intros H;
  match type of H with
  | ?a = _ => apply (f_equal (same_floats a)) in H; vm_compute in H; discriminate
  end.

Lemma demo_stray_no_match : no_match demo_embeddings (5, 5, 5)%float.
Proof.
  apply (proj1 (lookup_exact_Raise demo_embeddings (5, 5, 5)%float IndexError)).
  reflexivity.
Qed.

Example demo_session_linear :
  demo_main_view demo_observations false = Ok demo_c0 /\
  demo_handler demo_observations false next_frame demo_c0 = (Ok tt, demo_c1) /\
  demo_handler demo_observations false next_frame demo_c1 = (Ok tt, demo_c2).
Proof. repeat split. Qed.

(** C1, refuted as stated: the step into frame 1 of the stray session
    raises IndexError and leaves the controller at index 1, showing the
    field of frame 1 and no highlight, where before the call it was at index
    0 with sensor 1 highlighted. *)
Lemma navigation_not_atomic :
  demo_main_view stray_observations false = Ok stray_c0 /\
  demo_handler stray_observations false next_frame stray_c0
  = (Raise IndexError, mkController 1 [0; 3]%float [0; 0]%float 0) /\
  1 <> current_frame stray_c0 /\
  [0; 3]%float <> phd_scalars stray_c0 /\
  [0; 0]%float <> color_vector stray_c0.
Proof.
  split; [reflexivity|]. split; [reflexivity|].
  split; [discriminate|]. split; floats_differ.
Qed.

Lemma navigation_raises_after_moving_witness :
  frame_observations stray_observations 1 = Ok [(5, 5, 5)%float] /\
  no_match demo_embeddings (5, 5, 5)%float /\
  exists gm_s,
    py_getitem demo_fields 1 = Ok gm_s /\
    demo_handler stray_observations true next_frame stray_c0
    = (Raise IndexError,
       mkController 1 (contour_s_of log_binary64 true gm_s) (np_zeros 2) 0).
Proof.
  split; [reflexivity|]. split; [exact demo_stray_no_match|].
  apply (navigation_raises_after_moving log_binary64 demo_embeddings
           demo_fields stray_observations true next_frame stray_c0
           [(5, 5, 5)%float] (5, 5, 5)%float).
  - unfold len. cbn. lia.
  - reflexivity.
  - constructor.
  - exact demo_stray_no_match.
Defined.

Lemma current_frame_in_range_witness :
  demo_main_view stray_observations true
  = Ok (mkController 0 (contour_s_of log_binary64 true [1; 2]%float)
                     [0; 1]%float 0) /\
  1 <= len demo_fields /\
  0 <= current_frame
         (demo_run stray_observations true
            [next_frame; next_frame; next_frame; previous_frame; previous_frame;
             previous_frame]
            (mkController 0 (contour_s_of log_binary64 true [1; 2]%float)
                          [0; 1]%float 0))
    <= len demo_fields - 1.
Proof.
  split; [reflexivity|].
  apply (current_frame_in_range log_binary64 demo_embeddings demo_fields
           stray_observations true).
  reflexivity.
Defined.

Lemma boundary_navigation_noop_witness :
  demo_handler demo_observations false previous_frame demo_c0
  = (Ok tt, demo_c0) /\
  demo_handler demo_observations false next_frame demo_c2 = (Ok tt, demo_c2).
Proof.
  split.
  - apply (proj1 (boundary_navigation_noop log_binary64 demo_embeddings
                    demo_fields demo_observations false demo_c0)).
    reflexivity.
  - apply (proj2 (boundary_navigation_noop log_binary64 demo_embeddings
                    demo_fields demo_observations false demo_c2)).
    reflexivity.
Defined.

Lemma forward_backward_round_trip_witness :
  demo_main_view demo_observations false = Ok demo_c0 /\
  all_resolvable demo_embeddings demo_fields demo_observations = true /\
  exists s1 s2,
    _next_frame_changed log_binary64 demo_embeddings demo_fields
      demo_observations false (demo_run demo_observations false [next_frame] demo_c0)
    = (Ok tt, s1) /\
    _previous_frame_changed log_binary64 demo_embeddings demo_fields
      demo_observations false s1 = (Ok tt, s2) /\
    current_frame s1
    = current_frame (demo_run demo_observations false [next_frame] demo_c0) + 1 /\
    current_frame s2
    = current_frame (demo_run demo_observations false [next_frame] demo_c0) /\
    phd_scalars s2
    = phd_scalars (demo_run demo_observations false [next_frame] demo_c0) /\
    color_vector s2
    = color_vector (demo_run demo_observations false [next_frame] demo_c0).
Proof.
  split; [reflexivity|]. split; [reflexivity|].
  apply (forward_backward_round_trip log_binary64 demo_embeddings demo_fields
           demo_observations false demo_c0 [next_frame]).
  - reflexivity.
  - reflexivity.
  - vm_compute. reflexivity.
Defined.

Lemma highlight_mask_recomputed_witness :
  demo_handler demo_observations false next_frame
    (demo_run demo_observations false [] demo_c0) = (Ok tt, demo_c1) /\
  exists obs,
    frame_observations demo_observations (current_frame demo_c1) = Ok obs /\
    mask_of demo_embeddings obs (color_vector demo_c1) /\
    (obs = [] -> color_vector demo_c1 = np_zeros (length demo_embeddings)).
Proof.
  split; [reflexivity|].
  apply (highlight_mask_recomputed log_binary64 demo_embeddings demo_fields
           demo_observations false demo_c0 [] next_frame demo_c1).
  - reflexivity.
  - reflexivity.
  - vm_compute. discriminate.
Defined.

Example highlight_mask_end_to_end :
  color_vector (demo_run demo_observations true [next_frame] demo_c0)
  = [1; 0]%float /\
  color_vector (demo_run demo_observations true [next_frame; next_frame] demo_c0)
  = [0; 0]%float.
Proof. split; reflexivity. Qed.

Lemma playback_starts_at_frame_0_witness :
  demo_animate (Some demo_fields) None stray_observations false = Ok stray_c0 /\
  current_frame stray_c0 = 0 /\
  (exists gm_s rest,
     frames_of id (Some demo_fields) None = gm_s :: rest /\
     phd_scalars stray_c0 = contour_s_of log_binary64 false gm_s) /\
  exists obs rest,
    [[(1, 1, 1)%float]; [(5, 5, 5)%float]; []] = obs :: rest /\
    mask_of demo_embeddings obs (color_vector stray_c0).
Proof.
  split; [reflexivity|].
  apply (playback_starts_at_frame_0 log_binary64 (list float) id
           demo_embeddings (Some demo_fields) None stray_observations false
           stray_c0).
  reflexivity.
Defined.

(** C9, refuted as stated: an empty sequence of scalar fields makes the
    construction fail with IndexError, not with the ValueError of the
    argument check. *)
Lemma empty_sequence_raises_IndexError :
  demo_animate (Some []) None None true = Raise IndexError /\
  demo_animate None (Some []) None true = Raise IndexError /\
  demo_animate (Some []) None None true <> Raise ValueError.
Proof. repeat split. discriminate. Qed.

Lemma construction_failures_witness :
  demo_animate None None demo_observations true = Raise ValueError /\
  demo_animate (Some []) None demo_observations true = Raise IndexError.
Proof.
  split.
  - apply (proj1 (construction_failures log_binary64 (list float) id
                    demo_embeddings None None demo_observations true));
      reflexivity.
  - apply (proj1 (proj2 (construction_failures log_binary64 (list float) id
                           demo_embeddings (Some []) None demo_observations
                           true))).
    reflexivity.
Defined.

(** C7, refuted as stated: frame 2 of the session has the element -1, so
    [field + tiny] has a non-positive element; in log scale the step into
    it returns normally and the displayed field holds a NaN.
    [plot3d_sensor_with_gm] returns the same field. *)
Lemma log_of_negative_returns_nan :
  existsb nonpositive [-1; 4]%float = true /\
  exists c0 s,
    demo_main_view None true = Ok c0 /\
    demo_handler None true next_frame (demo_run None true [next_frame] c0)
    = (Ok tt, s) /\
    py_getitem demo_fields (current_frame s) = Ok [-1; 4]%float /\
    phd_scalars s !! 0%nat = Some nan /\
    plot3d_sensor_with_gm log_binary64 (list float) id
      (Some [-1; 4]%float) None true = Ok (phd_scalars s).
Proof.
  split; [reflexivity|].
  eexists. eexists. split; [reflexivity|].
  split; [vm_compute; reflexivity|].
  repeat split.
Qed.

Lemma log_transform_never_raises_witness :
  py_getitem demo_fields (current_frame demo_c2) = Ok [-1; 4]%float /\
  phd_scalars
    (snd (update_frame log_binary64 demo_embeddings demo_fields
            demo_observations true demo_c2))
  = map (fun x => log_binary64 (x + tiny)%float) [-1; 4]%float /\
  (length (color_vector demo_c2) = length demo_embeddings ->
   resolvable demo_embeddings demo_observations (current_frame demo_c2) = true ->
   fst (update_frame log_binary64 demo_embeddings demo_fields
          demo_observations true demo_c2) = Ok tt) /\
  plot3d_sensor_with_gm log_binary64 (list float) id
    (Some [-1; 4]%float) None true
  = Ok (map (fun x => log_binary64 (x + tiny)%float) [-1; 4]%float).
Proof.
  split; [reflexivity|].
  apply (log_transform_never_raises log_binary64 (list float) id
           demo_embeddings demo_fields demo_observations demo_c2
           [-1; 4]%float None).
  reflexivity.
Defined.

(** C6, refuted as stated: [tiny] is not the smallest positive binary64,
    2^-1074 is positive and smaller; and the log of a zero field offset by
    [tiny], as the code computes it, is not its log offset by 2^-1074. *)
Lemma tiny_is_not_the_smallest_positive :
  (0 <? smallest_subnormal)%float = true /\
  (smallest_subnormal <? tiny)%float = true /\
  contour_s_of log_binary64 true [0%float]
  <> map (fun x => log_binary64 (x + smallest_subnormal)%float) [0%float].
Proof.
  split; [reflexivity|]. split; [reflexivity|]. floats_differ.
Qed.

(** ** Further properties of the controller *)

Lemma py_getitem_Raise {A} (l : list A) (i : Z) (e : exn) :
  py_getitem l i = Raise e -> e = IndexError.
Proof.
  unfold py_getitem.
  destruct (_ && _); [destruct (l !! _)|]; congruence.
Qed.

Lemma py_getitem_beyond {A} (l : list A) (i : Z) :
  len l <= i -> py_getitem l i = Raise IndexError.
Proof.
  intros H. unfold py_getitem, len in *.
  destruct (Z.ltb_spec i 0) as [?|_]; [lia|].
  destruct (Z.ltb_spec i (Z.of_nat (length l))) as [?|_]; [lia|].
  rewrite andb_false_r. reflexivity.
Qed.

Section NavigationFacts.

Variable np_log : float -> float.
Variable embeddings : list vec3.
Variable gm_s_list : list (list float).
Variable observation_list : option (list (list vec3)).
Variable log_plot : bool.

Local Abbreviation update_frame' :=
  (update_frame np_log embeddings gm_s_list observation_list log_plot).
Local Abbreviation next' :=
  (_next_frame_changed np_log embeddings gm_s_list observation_list log_plot).
Local Abbreviation previous' :=
  (_previous_frame_changed np_log embeddings gm_s_list observation_list log_plot).
Local Abbreviation handler' :=
  (handler np_log embeddings gm_s_list observation_list log_plot).
Local Abbreviation press' :=
  (press np_log embeddings gm_s_list observation_list log_plot).
Local Abbreviation run' :=
  (run np_log embeddings gm_s_list observation_list log_plot).
Local Abbreviation main_view' :=
  (main_view np_log embeddings gm_s_list observation_list log_plot).
Local Abbreviation frame_scalars' := (frame_scalars np_log gm_s_list log_plot).
Local Abbreviation frame_colors' := (frame_colors embeddings observation_list).
Local Abbreviation shown' :=
  (shown np_log embeddings gm_s_list observation_list log_plot).
Local Abbreviation resolvable' := (resolvable embeddings observation_list).
Local Abbreviation in_range' := (in_range embeddings gm_s_list).

Lemma press_index (self : Controller) (b : button) :
  current_frame (press' self b)
  = step_index (len gm_s_list) (current_frame self) b.
Proof.
  unfold press. destruct b; cbn [handler step_index].
  - rewrite next_cases.
    destruct (current_frame self + 1 <? len gm_s_list); [|reflexivity].
    rewrite update_frame_current. reflexivity.
  - rewrite previous_cases.
    destruct (current_frame self - 1 >=? 0); [|reflexivity].
    rewrite update_frame_current. reflexivity.
Qed.

(** X1. The index after any presses is that of a clamped counter: it
    depends on the buttons and on the number of frames only, not on the
    fields, the observations or whether handlers raised. *)
Theorem index_follows_buttons (bs : list button) (self : Controller) :
  current_frame (run' bs self)
  = foldl (step_index (len gm_s_list)) (current_frame self) bs.
Proof.
  revert self. unfold run. induction bs as [|b bs IH]; intros self; cbn;
    [reflexivity|].
  rewrite IH, press_index. reflexivity.
Qed.

(** X2. From the first controller, [k] presses of the next button lead to
    frame [min k (N-1)], even if handlers raised on the way. *)
Theorem next_presses_saturate (c0 : Controller) (k : nat) :
  main_view' = Ok c0 ->
  current_frame (run' (replicate k next_frame) c0)
  = Z.min (Z.of_nat k) (len gm_s_list - 1).
Proof.
  intros H0. pose proof (main_view_nonempty _ _ _ _ _ _ H0) as Hn.
  apply main_view_Ok in H0 as [Hc _].
  induction k as [|k IH].
  - cbn. lia.
  - rewrite replicate_S_end. unfold run in *. rewrite foldl_app. cbn.
    rewrite press_index, IH. cbn [step_index].
    destruct (Z.ltb_spec (Z.min (Z.of_nat k) (len gm_s_list - 1) + 1)
                (len gm_s_list)); lia.
Qed.

(** X3. A handler asks for a draw exactly when it moved the index and
    returned normally, and then once: a press at a boundary or a press that
    raised leaves the draw count as it was. *)
Theorem draw_accounting (b : button) (self : Controller) :
  (fst (handler' b self) = Ok tt ->
   current_frame (snd (handler' b self)) <> current_frame self ->
   draws (snd (handler' b self)) = S (draws self)) /\
  (current_frame (snd (handler' b self)) = current_frame self ->
   draws (snd (handler' b self)) = draws self) /\
  (forall e, fst (handler' b self) = Raise e ->
   draws (snd (handler' b self)) = draws self).
Proof.
  assert (forall s, (fst (update_frame' s) = Ok tt ->
                     draws (snd (update_frame' s)) = S (draws s)) /\
                    (forall e, fst (update_frame' s) = Raise e ->
                     draws (snd (update_frame' s)) = draws s)) as Hu.
  { intros s. rewrite update_frame_cases. cbv zeta.
    destruct (frame_scalars _ _ _ _) as [f|e]; cbn.
    - destruct (frame_colors _ _ _ _) as [c|e]; cbn; split; intros;
        first [reflexivity|discriminate].
    - split; intros; first [reflexivity|discriminate]. }
  assert (forall t,
            current_frame (snd (update_frame' (set_current_frame t self))) = t)
    as Hi by (intros t; rewrite update_frame_current; reflexivity).
  destruct b; cbn [handler].
  - rewrite next_cases.
    destruct (current_frame self + 1 <? len gm_s_list).
    + destruct (Hu (set_current_frame (current_frame self + 1) self))
        as [Hok Hraise].
      split; [intros H _; apply Hok, H|]. split; [|exact Hraise].
      rewrite Hi. lia.
    + cbn. split; [congruence|]. split; [reflexivity|discriminate].
  - rewrite previous_cases.
    destruct (current_frame self - 1 >=? 0).
    + destruct (Hu (set_current_frame (current_frame self - 1) self))
        as [Hok Hraise].
      split; [intros H _; apply Hok, H|]. split; [|exact Hraise].
      rewrite Hi. lia.
    + cbn. split; [congruence|]. split; [reflexivity|discriminate].
Qed.

Lemma lookup_exact_existsb (v : vec3) (i : nat) :
  lookup_exact embeddings v = Ok i ->
  existsb (fun p => vec_eqb p v) embeddings = true.
Proof.
  intros H. apply lookup_exact_Ok in H as [(p & Hp & Hv) _].
  apply existsb_exists. exists p. split; [|exact Hv].
  apply list_elem_of_In. apply list_elem_of_lookup. eauto.
Qed.

Lemma frame_colors_unresolvable (n : nat) (i : Z) :
  resolvable' i = false -> frame_colors' n i = Raise IndexError.
Proof.
  unfold resolvable, frame_observations, frame_colors.
  destruct observation_list as [ol|]; [|discriminate].
  destruct (py_getitem ol i) as [obs|e] eqn:Eg; cbn.
  - intros Hf. destruct (obs_index_of embeddings obs) as [idx|e] eqn:E; cbn.
    + apply obs_index_of_Ok in E.
      assert (forallb (fun v => existsb (fun p => vec_eqb p v) embeddings) obs
              = true) as Ht; [|congruence].
      apply forallb_forall. intros v Hv. apply list_elem_of_In in Hv.
      apply list_elem_of_lookup_1 in Hv as [j Hj].
      destruct (Forall2_lookup_l _ _ _ _ _ E Hj) as (k & _ & Hk).
      eapply lookup_exact_existsb. exact Hk.
    + apply obs_index_of_Raise_inv in E as [-> _]. reflexivity.
  - intros _. apply py_getitem_Raise in Eg as ->. reflexivity.
Qed.

(** X4. From a controller in range, a handler raises exactly when it moves
    into a frame whose observations do not all resolve, and then it raises
    IndexError; at a boundary and into a resolvable frame it returns
    normally. It never raises ValueError. *)
Theorem handler_outcome (b : button) (self : Controller) :
  in_range' self ->
  fst (handler' b self)
  = if decide (0 <= target b (current_frame self) < len gm_s_list)
    then if resolvable' (target b (current_frame self))
         then Ok tt else Raise IndexError
    else Ok tt.
Proof.
  intros [Hi Hl]. destruct (decide _) as [Ht|Ht].
  - rewrite handler_moves by exact Ht. rewrite update_frame_cases. cbn.
    destruct (frame_scalars_in_range np_log _ log_plot _ Ht) as (gm_s & _ & ->).
    rewrite Hl.
    destruct (resolvable' _) eqn:Er.
    + destruct (frame_colors_resolvable _ _ _ Er) as [c ->]. reflexivity.
    + rewrite (frame_colors_unresolvable _ _ Er). reflexivity.
  - rewrite handler_stays by assumption. reflexivity.
Qed.

(** X5. When the observation list is shorter than the list of frames, a
    step into a frame past its end raises IndexError. *)
Theorem short_observation_list_raises (b : button) (self : Controller)
    (ol : list (list vec3)) :
  in_range' self ->
  observation_list = Some ol ->
  0 <= target b (current_frame self) < len gm_s_list ->
  len ol <= target b (current_frame self) ->
  fst (handler' b self) = Raise IndexError.
Proof.
  intros [Hi Hl] Hol Ht Hlen.
  rewrite handler_moves by exact Ht. rewrite update_frame_cases. cbn.
  destruct (frame_scalars_in_range np_log _ log_plot _ Ht) as (gm_s & _ & ->).
  rewrite frame_colors_unresolvable; [reflexivity|].
  unfold resolvable, frame_observations. rewrite Hol.
  rewrite py_getitem_beyond by exact Hlen. reflexivity.
Qed.

Lemma press_scalars (b : button) (self : Controller) :
  in_range' self ->
  frame_scalars' (current_frame self) = Ok (phd_scalars self) ->
  frame_scalars' (current_frame (press' self b))
  = Ok (phd_scalars (press' self b)).
Proof.
  intros [Hi Hl] Hs. unfold press.
  destruct (decide (0 <= target b (current_frame self) < len gm_s_list))
    as [Ht|Ht].
  - rewrite handler_moves by exact Ht. rewrite update_frame_cases. cbn.
    destruct (frame_scalars_in_range np_log _ log_plot _ Ht) as (gm_s & _ & Hf).
    rewrite Hf. destruct (frame_colors' _ _); exact Hf.
  - rewrite handler_stays by assumption. exact Hs.
Qed.

Lemma run_scalars (bs : list button) (self : Controller) :
  in_range' self ->
  frame_scalars' (current_frame self) = Ok (phd_scalars self) ->
  frame_scalars' (current_frame (run' bs self))
  = Ok (phd_scalars (run' bs self)).
Proof.
  revert self. unfold run.
  induction bs as [|b bs IH]; intros self Hr Hf; cbn; [exact Hf|].
  apply IH; [apply press_in_range; exact Hr | apply press_scalars; assumption].
Qed.

(** X6. The displayed field always is the transformed field of the current
    frame: after any presses from the first controller, handlers that
    raised included. *)
Theorem displayed_field_follows_index (c0 : Controller) (bs : list button) :
  main_view' = Ok c0 ->
  frame_scalars' (current_frame (run' bs c0))
  = Ok (phd_scalars (run' bs c0)).
Proof.
  intros H0. apply run_scalars.
  - eapply main_view_in_range. exact H0.
  - apply main_view_Ok in H0 as (Hc & _ & Hf & _). rewrite Hc. exact Hf.
Qed.

Section ColorVectorInvariant.

Variable P : list float -> Prop.
Hypothesis P_zeros : P (np_zeros (length embeddings)).
Hypothesis P_colors :
  forall i c, frame_colors' (length embeddings) i = Ok c -> P c.

Lemma press_color_vector (b : button) (self : Controller) :
  in_range' self -> P (color_vector self) -> P (color_vector (press' self b)).
Proof.
  intros [Hi Hl] HP. unfold press.
  destruct (decide (0 <= target b (current_frame self) < len gm_s_list))
    as [Ht|Ht].
  - rewrite handler_moves by exact Ht. rewrite update_frame_cases. cbn.
    destruct (frame_scalars' _) as [f|e]; [|exact HP]. rewrite Hl.
    destruct (frame_colors' _ _) as [c|e] eqn:Ec; cbn;
      [eapply P_colors; exact Ec | exact P_zeros].
  - rewrite handler_stays by assumption. exact HP.
Qed.

Lemma run_color_vector (c0 : Controller) (bs : list button) :
  main_view' = Ok c0 -> P (color_vector (run' bs c0)).
Proof.
  intros H0. pose proof (main_view_in_range _ _ _ _ _ _ H0) as Hr.
  apply main_view_Ok in H0 as (_ & _ & _ & Hcol). apply P_colors in Hcol.
  revert c0 Hr Hcol. unfold run.
  induction bs as [|b bs IH]; intros c0 Hr HP; cbn; [exact HP|].
  apply IH; [apply press_in_range; exact Hr | apply press_color_vector; assumption].
Qed.

End ColorVectorInvariant.

Lemma frame_colors_lookup (i : Z) (c : list float) (k : nat) :
  frame_colors' (length embeddings) i = Ok c ->
  (k < length embeddings)%nat ->
  (c !! k = Some 1%float /\
   exists obs, frame_observations observation_list i = Ok obs /\
               highlighted embeddings obs k) \/
  c !! k = Some 0%float.
Proof.
  intros H Hk. unfold frame_colors, frame_observations in *.
  destruct observation_list as [ol|].
  - destruct (py_getitem ol i) as [obs|e]; cbn in H; [|discriminate].
    destruct (obs_index_of embeddings obs) as [idx|e] eqn:E; cbn in H;
      [|discriminate].
    apply np_setitems_Ok in H as ->.
    destruct (decide (k ∈ idx)) as [Hin|Hnot].
    + left. split.
      * apply store_lookup_in; [exact Hin|].
        unfold np_zeros. rewrite length_replicate. exact Hk.
      * exists obs. split; [reflexivity|].
        apply (obs_index_of_elem _ _ _ k E). exact Hin.
    + right. rewrite store_lookup_notin by exact Hnot.
      apply lookup_np_zeros. exact Hk.
  - right. injection H as <-. apply lookup_np_zeros. exact Hk.
Qed.

(** X7. The highlight vector always has one entry per row of
    [embeddings], each 0.0 or 1.0: after any presses from the first
    controller, handlers that raised included. *)
Theorem color_vector_is_a_mask (c0 : Controller) (bs : list button) :
  main_view' = Ok c0 ->
  length (color_vector (run' bs c0)) = length embeddings /\
  Forall is_flag (color_vector (run' bs c0)).
Proof.
  intros H0. split.
  - apply (run_in_range _ _ _ _ _ bs c0 (main_view_in_range _ _ _ _ _ _ H0)).
  - apply (run_color_vector (Forall is_flag)); [| |exact H0].
    + apply Forall_replicate. left. reflexivity.
    + intros i c Hc. pose proof (frame_colors_length _ _ _ _ _ Hc) as Hlen.
      apply Forall_lookup. intros k x Hx.
      pose proof (lookup_lt_Some _ _ _ Hx) as Hk. rewrite Hlen in Hk.
      destruct (frame_colors_lookup i c k Hc Hk) as [[H1 _]|H0'];
        [right|left]; congruence.
Qed.

(** X8. A sensor whose position is that of an earlier row is never
    highlighted: its entry of the highlight vector is 0.0 after any presses
    from the first controller. *)
Theorem shadowed_sensor_never_highlighted (c0 : Controller)
    (bs : list button) (i j : nat) (p : vec3) :
  main_view' = Ok c0 ->
  embeddings !! i = Some p -> embeddings !! j = Some p -> (i < j)%nat ->
  color_vector (run' bs c0) !! j = Some 0%float.
Proof.
  intros H0 Hi Hj Hlt.
  pose proof (lookup_lt_Some _ _ _ Hj) as Hjn.
  apply (run_color_vector (fun c => c !! j = Some 0%float)); [| |exact H0].
  - apply lookup_np_zeros. exact Hjn.
  - intros t c Hc.
    destruct (frame_colors_lookup t c j Hc Hjn) as [[_ (obs & _ & v & _ & Hv)]|H];
      [|exact H].
    apply lookup_exact_Ok in Hv as [(q & Hq & Hqv) Hfirst].
    assert (q = p) as -> by congruence.
    rewrite (Hfirst i p Hlt Hi) in Hqv. discriminate.
Qed.

(** X9. With every observation of every frame resolvable, from any
    controller reached from [main_view] whose index is not 0,
    [_previous_frame_changed] followed by [_next_frame_changed] both return
    normally and end at the same index, displayed field and highlight
    vector as before the two calls. *)
Theorem backward_forward_round_trip (c0 : Controller) (bs : list button) :
  main_view' = Ok c0 ->
  all_resolvable embeddings gm_s_list observation_list = true ->
  1 <= current_frame (run' bs c0) ->
  exists s1 s2,
    previous' (run' bs c0) = (Ok tt, s1) /\
    next' s1 = (Ok tt, s2) /\
    current_frame s1 = current_frame (run' bs c0) - 1 /\
    current_frame s2 = current_frame (run' bs c0) /\
    phd_scalars s2 = phd_scalars (run' bs c0) /\
    color_vector s2 = color_vector (run' bs c0).
Proof.
  intros H0 Hall Hi.
  pose proof (main_view_in_range np_log embeddings gm_s_list observation_list
                log_plot _ H0) as Hr0.
  pose proof (main_view_shown np_log embeddings gm_s_list observation_list
                log_plot _ H0) as Hs0.
  pose proof (run_in_range np_log embeddings gm_s_list observation_list
                log_plot bs c0 Hr0) as Hr.
  pose proof (run_shown np_log embeddings gm_s_list observation_list
                log_plot bs c0 Hall Hr0 Hs0) as Hs.
  set (s := run' bs c0) in *.
  destruct (handler_shows np_log embeddings gm_s_list observation_list
              log_plot previous_frame s Hall Hr Hs) as (s1 & H1 & Hs1 & Hc1).
  cbn [target handler] in H1, Hc1.
  destruct Hr as [Hlo Hl].
  rewrite decide_True in Hc1 by lia.
  assert (in_range' s1) as Hr1.
  { pose proof (press_in_range np_log _ _ observation_list log_plot
                  previous_frame s (conj Hlo Hl)) as Hp.
    unfold press in Hp. cbn [handler] in Hp. rewrite H1 in Hp. exact Hp. }
  destruct (handler_shows np_log embeddings gm_s_list observation_list
              log_plot next_frame s1 Hall Hr1 Hs1) as (s2 & H2 & Hs2 & Hc2).
  cbn [target handler] in H2, Hc2.
  rewrite decide_True in Hc2 by lia.
  exists s1, s2. split; [exact H1|]. split; [exact H2|].
  split; [exact Hc1|].
  assert (current_frame s2 = current_frame s) as Hc by lia.
  split; [exact Hc|].
  destruct Hs as [Hf Hcol]. destruct Hs2 as [Hf2 Hcol2].
  rewrite Hc in Hf2, Hcol2. split; congruence.
Qed.



(** X11. Without an observation list no handler ever raises and nothing
    is ever highlighted: after any presses from the first controller the
    next press returns normally and the highlight vector is all zeros. *)
Theorem no_observation_list_never_raises (c0 : Controller)
    (bs : list button) (b : button) :
  observation_list = None ->
  main_view' = Ok c0 ->
  fst (handler' b (run' bs c0)) = Ok tt /\
  color_vector (run' bs c0) = np_zeros (length embeddings).
Proof.
  intros Hnone H0.
  assert (forall n i, frame_colors' n i = Ok (np_zeros n)) as Hcol
    by (intros n i; unfold frame_colors; rewrite Hnone; reflexivity).
  split.
  - destruct (run_in_range np_log embeddings gm_s_list observation_list
                log_plot bs c0
                (main_view_in_range np_log embeddings gm_s_list
                   observation_list log_plot _ H0)) as [Hi Hl].
    destruct (decide (0 <= target b (current_frame (run' bs c0))
                      < len gm_s_list)) as [Ht|Ht].
    + rewrite handler_moves by exact Ht. rewrite update_frame_cases. cbn.
      destruct (frame_scalars_in_range np_log _ log_plot _ Ht)
        as (gm_s & _ & ->).
      rewrite Hcol. reflexivity.
    + rewrite handler_stays by assumption. reflexivity.
  - apply (run_color_vector (fun c => c = np_zeros (length embeddings)));
      [reflexivity| |exact H0].
    intros i c Hc. rewrite Hcol in Hc. congruence.
Qed.

End NavigationFacts.

(** ** Observations as a set *)

Lemma obs_index_of_same_elements (embeddings : list vec3)
    (obs1 obs2 : list vec3) (n : nat) :
  n = length embeddings ->
  (forall v, v ∈ obs1 <-> v ∈ obs2) ->
  (let* idx := obs_index_of embeddings obs1 in
   np_setitems (np_zeros n) idx 1%float)%res
  = (let* idx := obs_index_of embeddings obs2 in
     np_setitems (np_zeros n) idx 1%float)%res.
Proof.
  intros -> Hsame.
  destruct (obs_index_of embeddings obs1) as [idx1|e] eqn:E1; cbn.
  - destruct (obs_index_of embeddings obs2) as [idx2|e] eqn:E2; cbn.
    + pose proof (obs_index_of_lt _ _ _ E1) as Hlt1.
      pose proof (obs_index_of_lt _ _ _ E2) as Hlt2.
      rewrite !np_setitems_in_range
        by (unfold np_zeros; rewrite length_replicate; assumption).
      f_equal. apply list_eq. intros k.
      assert (k ∈ idx1 <-> k ∈ idx2) as Hk.
      { rewrite (obs_index_of_elem _ _ _ k E1), (obs_index_of_elem _ _ _ k E2).
        unfold highlighted. split; intros (v & Hv & Hl); exists v;
          (split; [apply Hsame; exact Hv | exact Hl]). }
      destruct (decide (k ∈ idx1)) as [Hin|Hnot].
      * rewrite Forall_forall in Hlt1.
        rewrite !store_lookup_in; try reflexivity; try tauto;
          unfold np_zeros; rewrite length_replicate; apply Hlt1; exact Hin.
      * rewrite !store_lookup_notin by tauto. reflexivity.
    + apply obs_index_of_Raise_inv in E2 as (_ & v & Hv & Hno).
      apply Hsame in Hv.
      rewrite (obs_index_of_unmatched _ _ _ Hv Hno) in E1. discriminate.
  - apply obs_index_of_Raise_inv in E1 as (-> & v & Hv & Hno).
    apply Hsame in Hv. rewrite (obs_index_of_unmatched _ _ _ Hv Hno).
    reflexivity.
Qed.

(** X12. What [update_frame] does depends on the observations of the frame
    as a set: two observation lists whose entries for the current frame have
    the same elements, in any order and with any repetitions, give the same
    result and the same controller. *)
Theorem update_frame_ignores_order_and_repeats (np_log : float -> float)
    (embeddings : list vec3) (gm_s_list : list (list float))
    (ol1 ol2 : list (list vec3)) (log_plot : bool) (self : Controller)
    (obs1 obs2 : list vec3) :
  length (color_vector self) = length embeddings ->
  py_getitem ol1 (current_frame self) = Ok obs1 ->
  py_getitem ol2 (current_frame self) = Ok obs2 ->
  (forall v, v ∈ obs1 <-> v ∈ obs2) ->
  update_frame np_log embeddings gm_s_list (Some ol1) log_plot self
  = update_frame np_log embeddings gm_s_list (Some ol2) log_plot self.
Proof.
  intros Hl H1 H2 Hsame. rewrite !update_frame_cases. cbv zeta.
  destruct (frame_scalars _ _ _ _) as [f|e]; [|reflexivity].
  unfold frame_colors. rewrite H1, H2. cbn [bindR].
  rewrite (obs_index_of_same_elements embeddings obs1 obs2 _ Hl Hsame).
  reflexivity.
Qed.

(** ** NaN coordinates *)

Lemma SFeqb_nan_r (x : SpecFloat.spec_float) :
  SpecFloat.SFeqb x SpecFloat.S754_nan = false.
Proof. destruct x; reflexivity. Qed.

Lemma is_nan_Prim2SF (a : float) :
  is_nan a = true -> Prim2SF a = SpecFloat.S754_nan.
Proof.
  unfold is_nan. rewrite FloatAxioms.eqb_spec.
  destruct (Prim2SF a) as [s|s| |s m e]; cbn; try discriminate; try reflexivity.
  - destruct s; discriminate.
  - unfold SpecFloat.SFeqb, SpecFloat.SFcompare.
    rewrite Z.compare_refl, Pos.compare_cont_refl. destruct s; discriminate.
Qed.

Lemma eqb_nan_r (x a : float) : is_nan a = true -> (x =? a)%float = false.
Proof.
  intros H. rewrite FloatAxioms.eqb_spec, (is_nan_Prim2SF a H).
  apply SFeqb_nan_r.
Qed.

(** X13. An observation with a NaN coordinate resolves to no sensor,
    whatever the registered positions: the lookup raises IndexError. *)
Theorem nan_observation_never_matches (embeddings : list vec3) (v : vec3) :
  has_nan v = true -> lookup_exact embeddings v = Raise IndexError.
Proof.
  intros H. apply lookup_exact_Raise. split; [reflexivity|].
  intros [[x y] z] _. destruct v as [[a b] c]. cbn in *.
  apply orb_true_iff in H as [H|H]; [apply orb_true_iff in H as [H|H]|].
  - rewrite (eqb_nan_r x a H). reflexivity.
  - rewrite (eqb_nan_r y b H), andb_false_r. reflexivity.
  - rewrite (eqb_nan_r z c H). apply andb_false_r.
Qed.

(** ** The labels and the scenes *)

Lemma text3d_labels_from_cases (embeddings : list vec3)
    (sensor_list : list string) (i : nat) :
  (i <= length sensor_list)%nat ->
  text3d_labels_from i embeddings sensor_list
  = if decide (i + length embeddings <= length sensor_list)%nat
    then Ok (zip embeddings (drop i sensor_list))
    else Raise IndexError.
Proof.
  revert i. induction embeddings as [|x rest IH]; intros i Hle;
    cbn [text3d_labels_from length].
  - rewrite decide_True by lia. reflexivity.
  - destruct (decide (i < length sensor_list)%nat) as [Hi|Hi].
    + destruct (py_getitem_in_range sensor_list (Z.of_nat i))
        as (name & -> & Hname); [unfold len; lia|].
      rewrite Nat2Z.id in Hname. cbn [bindR]. rewrite IH by lia.
      destruct (decide (S i + length rest <= length sensor_list)%nat).
      * rewrite decide_True by lia. cbn.
        rewrite (drop_S _ _ _ Hname). reflexivity.
      * rewrite decide_False by lia. reflexivity.
    + rewrite py_getitem_beyond by (unfold len; lia).
      rewrite decide_False by lia. reflexivity.
Qed.

(** X14. The label loop needs a sensor for every row of [embeddings]:
    with at least as many sensors as rows, [plot3d_sensor_vector] labels row
    [i] with the name of sensor [i] and ignores the sensors beyond; with
    fewer it raises IndexError. *)
Theorem labels_need_a_sensor_per_row (sensor_list : list string)
    (embeddings : list vec3) :
  ((length embeddings <= length sensor_list)%nat ->
   plot3d_sensor_vector sensor_list embeddings
   = Ok (zip embeddings sensor_list)) /\
  ((length sensor_list < length embeddings)%nat ->
   plot3d_sensor_vector sensor_list embeddings = Raise IndexError).
Proof.
  unfold plot3d_sensor_vector, text3d_labels.
  rewrite text3d_labels_from_cases by lia. cbn [drop Nat.add].
  split; intros H; [rewrite decide_True by lia | rewrite decide_False by lia];
    reflexivity.
Qed.

Section SceneFacts.

Variable np_log : float -> float.
Variable GM : Type.
Variable gm_calculate : GM -> list float.

Lemma animate_scene_cases (sensor_list : list string) (embeddings : list vec3)
    (gm_s_list : option (list (list float))) (gm_list_list : option (list GM))
    (observation_list : option (list (list vec3))) (log_plot : bool) :
  animate_sensor_with_gm_scene np_log GM gm_calculate sensor_list embeddings
    gm_s_list gm_list_list observation_list log_plot
  = (let* c := animate_sensor_with_gm np_log GM gm_calculate embeddings
                 gm_s_list gm_list_list observation_list log_plot in
     let* labels := text3d_labels embeddings sensor_list in
     Ok (c, labels))%res.
Proof.
  unfold animate_sensor_with_gm_scene, animate_sensor_with_gm, main_view.
  destruct gm_s_list as [l|]; [|destruct gm_list_list as [gll|]];
    cbn [bindR]; try reflexivity.
  - destruct (py_getitem l 0); cbn [bindR]; [|reflexivity].
    destruct observation_list as [ol|]; cbn [bindR]; [|reflexivity].
    destruct (py_getitem ol 0); cbn [bindR]; [|reflexivity].
    destruct (obs_index_of embeddings _); cbn [bindR]; [|reflexivity].
    destruct (np_setitems _ _ _); reflexivity.
  - destruct (py_getitem _ 0); cbn [bindR]; [|reflexivity].
    destruct observation_list as [ol|]; cbn [bindR]; [|reflexivity].
    destruct (py_getitem ol 0); cbn [bindR]; [|reflexivity].
    destruct (obs_index_of embeddings _); cbn [bindR]; [|reflexivity].
    destruct (np_setitems _ _ _); reflexivity.
Qed.

(** X15. The animation with its labels starts exactly when the controller
    can be built and there is a sensor for every row of [embeddings]; the
    controller is then the one of [animate_sensor_with_gm] and row [i] is
    labelled with the name of sensor [i]. *)
Theorem animate_scene_succeeds_iff (sensor_list : list string)
    (embeddings : list vec3)
    (gm_s_list : option (list (list float))) (gm_list_list : option (list GM))
    (observation_list : option (list (list vec3))) (log_plot : bool)
    (c : Controller) (labels : list (vec3 * string)) :
  animate_sensor_with_gm_scene np_log GM gm_calculate sensor_list embeddings
    gm_s_list gm_list_list observation_list log_plot = Ok (c, labels)
  <->
  animate_sensor_with_gm np_log GM gm_calculate embeddings
    gm_s_list gm_list_list observation_list log_plot = Ok c /\
  (length embeddings <= length sensor_list)%nat /\
  labels = zip embeddings sensor_list.
Proof.
  rewrite animate_scene_cases. unfold text3d_labels.
  rewrite text3d_labels_from_cases by lia. cbn [drop Nat.add].
  destruct (animate_sensor_with_gm _ _ _ _ _ _ _ _) as [c'|e]; cbn [bindR].
  - destruct (decide _) as [Hle|Hgt]; cbn [bindR].
    + split; [intros [= -> <-]; auto | intros ([= ->] & _ & ->); reflexivity].
    + split; [discriminate | intros (_ & Hle & _); lia].
  - split; [discriminate | intros [H _]; discriminate].
Qed.

(** X16. Played from mixtures, the session has one frame per mixture, in
    order: after any presses from the first controller the index is below
    the number of mixtures and the displayed field is the transform of the
    mixture at that index, sampled by [gm_calculate]. *)
Theorem mixtures_play_in_order (embeddings : list vec3)
    (gm_list_list : list GM)
    (observation_list : option (list (list vec3))) (log_plot : bool)
    (c0 : Controller) (bs : list button) :
  animate_sensor_with_gm np_log GM gm_calculate embeddings None
    (Some gm_list_list) observation_list log_plot = Ok c0 ->
  exists gm_list,
    gm_list_list
    !! Z.to_nat (current_frame
                   (run np_log embeddings (map gm_calculate gm_list_list)
                        observation_list log_plot bs c0))
    = Some gm_list /\
    phd_scalars (run np_log embeddings (map gm_calculate gm_list_list)
                     observation_list log_plot bs c0)
    = contour_s_of np_log log_plot (gm_calculate gm_list).
Proof.
  rewrite animate_cases. cbn [frames_of]. intros H0.
  pose proof (main_view_in_range _ _ _ _ _ _ H0) as Hr0.
  pose proof (run_in_range np_log _ _ observation_list log_plot bs c0 Hr0)
    as [Hi _].
  assert (frame_scalars np_log (map gm_calculate gm_list_list) log_plot
            (current_frame c0) = Ok (phd_scalars c0)) as Hf0.
  { apply main_view_Ok in H0 as (Hc & _ & Hf & _). rewrite Hc. exact Hf. }
  pose proof (run_scalars np_log _ _ observation_list log_plot bs c0 Hr0 Hf0)
    as Hf.
  destruct (py_getitem_in_range _ _ Hi) as (f & Hg & Hl).
  unfold frame_scalars in Hf. rewrite Hg in Hf. cbn in Hf.
  rewrite list_lookup_fmap in Hl.
  destruct (gm_list_list !! _) as [gm|]; [|discriminate].
  exists gm. split; [reflexivity|]. cbn in Hl. congruence.
Qed.

(** X17. [plot3d_sensor_with_gm] by cases. Without a scalar and without
    a mixture it raises ValueError; otherwise an empty observation list
    raises ValueError, and otherwise fewer sensors than rows of
    [embeddings] raise IndexError. In the remaining case it plots the
    transformed scalar, the observations exactly as given (they are never
    looked up among the sensors) and one label per row. *)
Theorem plot3d_scene_outcome (sensor_list : list string)
    (embeddings : list vec3) (gm_s : option (list float))
    (gm_list : option GM) (observation : option (list vec3))
    (log_plot : bool) :
  plot3d_sensor_with_gm_scene np_log GM gm_calculate sensor_list embeddings
    gm_s gm_list observation log_plot
  = match gm_s, gm_list with
    | None, None => Raise ValueError
    | _, _ =>
        match observation with
        | Some [] => Raise ValueError
        | _ =>
            if decide (length embeddings <= length sensor_list)%nat
            then Ok (contour_s_of np_log log_plot
                       (scalar_of gm_calculate gm_s gm_list),
                     default [] observation,
                     zip embeddings sensor_list)
            else Raise IndexError
        end
    end.
Proof.
  unfold plot3d_sensor_with_gm_scene, plot3d_sensor_with_gm, text3d_labels.
  rewrite text3d_labels_from_cases by lia. cbn [drop Nat.add].
  destruct gm_s as [g|]; [|destruct gm_list as [gl|]]; cbn [bindR scalar_of];
    try reflexivity;
    destruct observation as [[|v obs]|]; cbn [bindR default];
    try reflexivity; destruct (decide _); reflexivity.
Qed.

End SceneFacts.

(** ** The example session, continued *)

Lemma demo_stray_log_main_view :
  demo_main_view stray_observations true = Ok stray_log_c0.
Proof. reflexivity. Qed.

Lemma next_presses_saturate_witness :
  current_frame (demo_run stray_observations true (replicate 5 next_frame)
                   stray_log_c0)
  = Z.min (Z.of_nat 5) (len demo_fields - 1).
Proof.
  apply (next_presses_saturate log_binary64 demo_embeddings demo_fields
           stray_observations true stray_log_c0 5).
  exact demo_stray_log_main_view.
Defined.

Lemma draw_accounting_witness :
  draws (snd (demo_handler demo_observations false next_frame demo_c0)) = 1%nat /\
  draws (snd (demo_handler stray_observations false next_frame stray_c0)) = 0%nat.
Proof.
  split.
  - apply (proj1 (draw_accounting log_binary64 demo_embeddings demo_fields
                    demo_observations false next_frame demo_c0)).
    + reflexivity.
    + vm_compute. discriminate.
  - apply (proj2 (proj2 (draw_accounting log_binary64 demo_embeddings
                           demo_fields stray_observations false next_frame
                           stray_c0)) IndexError).
    reflexivity.
Defined.

Lemma handler_outcome_witness :
  in_range demo_embeddings demo_fields stray_c0 /\
  fst (demo_handler stray_observations false next_frame stray_c0)
  = if decide (0 <= target next_frame (current_frame stray_c0)
               < len demo_fields)
    then if resolvable demo_embeddings stray_observations
              (target next_frame (current_frame stray_c0))
         then Ok tt else Raise IndexError
    else Ok tt.
Proof.
  assert (in_range demo_embeddings demo_fields stray_c0) as Hr.
  { split; [unfold len; cbn; lia | reflexivity]. }
  split; [exact Hr|].
  apply (handler_outcome log_binary64 demo_embeddings demo_fields
           stray_observations false next_frame stray_c0 Hr).
Defined.

Lemma short_observation_list_raises_witness :
  fst (demo_handler short_observations true next_frame demo_c0)
  = Raise IndexError.
Proof.
  apply (short_observation_list_raises log_binary64 demo_embeddings
           demo_fields short_observations true next_frame demo_c0 [[]]).
  - split; [unfold len; cbn; lia | reflexivity].
  - reflexivity.
  - unfold len. cbn. lia.
  - unfold len. cbn. lia.
Defined.

Lemma displayed_field_follows_index_witness :
  frame_scalars log_binary64 demo_fields true
    (current_frame
       (demo_run stray_observations true [next_frame; next_frame] stray_log_c0))
  = Ok (phd_scalars
          (demo_run stray_observations true [next_frame; next_frame]
             stray_log_c0)).
Proof.
  apply (displayed_field_follows_index log_binary64 demo_embeddings
           demo_fields stray_observations true stray_log_c0
           [next_frame; next_frame]).
  exact demo_stray_log_main_view.
Defined.

Lemma color_vector_is_a_mask_witness :
  length (color_vector
            (demo_run stray_observations true [next_frame; previous_frame]
               stray_log_c0))
  = length demo_embeddings /\
  Forall is_flag
    (color_vector
       (demo_run stray_observations true [next_frame; previous_frame]
          stray_log_c0)).
Proof.
  apply (color_vector_is_a_mask log_binary64 demo_embeddings demo_fields
           stray_observations true stray_log_c0 [next_frame; previous_frame]).
  exact demo_stray_log_main_view.
Defined.

Lemma shadowed_sensor_never_highlighted_witness :
  color_vector
    (run log_binary64 twin_embeddings demo_fields demo_observations false
       [next_frame] demo_c0) !! 1%nat
  = Some 0%float.
Proof.
  apply (shadowed_sensor_never_highlighted log_binary64 twin_embeddings
           demo_fields demo_observations false demo_c0 [next_frame]
           0%nat 1%nat (0, 0, 0)%float).
  - reflexivity.
  - reflexivity.
  - reflexivity.
  - lia.
Defined.

Lemma backward_forward_round_trip_witness :
  exists s1 s2,
    _previous_frame_changed log_binary64 demo_embeddings demo_fields
      demo_observations false
      (demo_run demo_observations false [next_frame] demo_c0) = (Ok tt, s1) /\
    _next_frame_changed log_binary64 demo_embeddings demo_fields
      demo_observations false s1 = (Ok tt, s2) /\
    current_frame s1
    = current_frame (demo_run demo_observations false [next_frame] demo_c0) - 1 /\
    current_frame s2
    = current_frame (demo_run demo_observations false [next_frame] demo_c0) /\
    phd_scalars s2
    = phd_scalars (demo_run demo_observations false [next_frame] demo_c0) /\
    color_vector s2
    = color_vector (demo_run demo_observations false [next_frame] demo_c0).
Proof.
  apply (backward_forward_round_trip log_binary64 demo_embeddings demo_fields
           demo_observations false demo_c0 [next_frame]).
  - reflexivity.
  - reflexivity.
  - vm_compute. discriminate.
Defined.

Lemma no_observation_list_never_raises_witness :
  fst (demo_handler None false next_frame
         (demo_run None false [next_frame; next_frame] demo_c0)) = Ok tt /\
  color_vector (demo_run None false [next_frame; next_frame] demo_c0)
  = np_zeros (length demo_embeddings).
Proof.
  apply (no_observation_list_never_raises log_binary64 demo_embeddings
           demo_fields None false demo_c0 [next_frame; next_frame] next_frame).
  - reflexivity.
  - reflexivity.
Defined.

Lemma update_frame_ignores_order_and_repeats_witness :
  update_frame log_binary64 demo_embeddings demo_fields
    (Some repeated_observations) true demo_c0
  = update_frame log_binary64 demo_embeddings demo_fields
      (Some reordered_observations) true demo_c0.
Proof.
  apply (update_frame_ignores_order_and_repeats log_binary64 demo_embeddings
           demo_fields repeated_observations reordered_observations true
           demo_c0 [(0, 0, 0); (1, 1, 1); (0, 0, 0)]%float
           [(1, 1, 1); (0, 0, 0)]%float).
  - reflexivity.
  - reflexivity.
  - reflexivity.
  - intros v. rewrite !elem_of_cons, !elem_of_nil. tauto.
Defined.

Lemma nan_observation_never_matches_witness :
  lookup_exact demo_embeddings (nan, 0, 0)%float = Raise IndexError.
Proof.
  apply (nan_observation_never_matches demo_embeddings (nan, 0, 0)%float).
  reflexivity.
Defined.

Lemma labels_need_a_sensor_per_row_witness :
  plot3d_sensor_vector demo_sensor_list demo_embeddings
  = Ok (zip demo_embeddings demo_sensor_list) /\
  plot3d_sensor_vector ["M001"%string] demo_embeddings = Raise IndexError.
Proof.
  split.
  - apply (proj1 (labels_need_a_sensor_per_row demo_sensor_list
                    demo_embeddings)). cbn. lia.
  - apply (proj2 (labels_need_a_sensor_per_row ["M001"%string]
                    demo_embeddings)). cbn. lia.
Defined.

Lemma mixtures_play_in_order_witness :
  exists gm_list,
    demo_fields
    !! Z.to_nat (current_frame
                   (run log_binary64 demo_embeddings (map id demo_fields)
                        demo_observations false [next_frame] demo_c0))
    = Some gm_list /\
    phd_scalars (run log_binary64 demo_embeddings (map id demo_fields)
                     demo_observations false [next_frame] demo_c0)
    = contour_s_of log_binary64 false (id gm_list).
Proof.
  apply (mixtures_play_in_order log_binary64 (list float) id demo_embeddings
           demo_fields demo_observations false demo_c0 [next_frame]).
  reflexivity.
Defined.
